(** * A DCGAN trainer: the adversarial training loop of [DCGAN.py] and
      [nlzl16_generative_model.py], their layer-shape arithmetic, their
      latent interpolation block and their image-directory handling.

    The numeric kernels of torch (convolutions, batch normalisation, the
    binary cross-entropy, Adam) are opaque operations of a [Torch] interface;
    what is embedded from the two scripts is everything they decide
    themselves: the order of forward passes, backward passes and optimizer
    steps, which tensors carry a [grad_fn], the loop headers, the tensor
    shapes and the file-system calls. *)

From Stdlib Require Import ZArith QArith Lia.
From stdpp Require Import base list strings gmap pretty.

Local Open Scope nat_scope.

(** ** The torch interface *)

(** [torch.full((b_size,), v)]: a label tensor is its length and its fill
    value; [label.fill_(v)] overwrites the fill value. *)
Record Label := { label_size : nat; label_fill : Q }.

Definition full (n : nat) (v : Q) : Label := {| label_size := n; label_fill := v |}.
Definition fill_ (l : Label) (v : Q) : Label := {| label_size := label_size l; label_fill := v |}.

Class Torch := {
  (* the global generator seeded by torch.manual_seed *)
  RNG : Type;
  (* a choice of the device's kernel scheduling; kernels run on [device],
     and on an accelerator their result may depend on it *)
  Sched : Type;
  Latent : Type;   (* batch x nz x 1 x 1 *)
  Image : Type;    (* batch x nc x H x W *)
  Score : Type;    (* netD(...).view(-1) *)
  Scalar : Type;   (* a 0-dim loss tensor, and its .item() *)
  Grid : Type;     (* vutils.make_grid output *)
  ParamG : Type; BufG : Type; GradG : Type; AdamG : Type;
  ParamD : Type; BufD : Type; GradD : Type; AdamD : Type;
  manual_seed : nat -> RNG;
  randn : RNG -> nat -> nat -> Latent * RNG;
  (* DataLoader(train_dataset, batch_size, shuffle=True) *)
  dataset_len : nat;
  loader_iter : RNG -> (nat -> Image) * RNG;
  size0 : Image -> nat;
  (* construction of a network followed by .apply(weights_init) *)
  init_G : RNG -> ParamG * BufG * RNG;
  init_D : RNG -> ParamD * BufD * RNG;
  adam_init_G : ParamG -> AdamG;
  adam_init_D : ParamD -> AdamD;
  (* forward passes in train mode: the output and the updated buffers
     (running statistics) *)
  G_forward : Sched -> ParamG -> BufG -> Latent -> Image * BufG;
  D_forward : Sched -> ParamD -> BufD -> Image -> Score * BufD;
  (* nn.BCELoss() *)
  bce : Sched -> Score -> Label -> Scalar;
  (* the gradient of bce(netD(x), label) in netD's parameters *)
  bce_grad_D : Sched -> ParamD -> BufD -> Image -> Label -> GradD;
  (* the gradient of bce(netD(netG(z)), label) in netG's parameters *)
  bce_grad_G : Sched -> ParamG -> BufG -> Latent -> ParamD -> BufD -> Label -> GradG;
  grad_add_G : GradG -> GradG -> GradG;
  grad_add_D : GradD -> GradD -> GradD;
  adam_G : Sched -> AdamG -> ParamG -> GradG -> ParamG * AdamG;
  adam_D : Sched -> AdamD -> ParamD -> GradD -> ParamD * AdamD;
  scalar_add : Scalar -> Scalar -> Scalar;
  make_grid : Image -> Grid
}.

(** ** Tensors and their autograd graph *)

Section Trainer.
Context {T : Torch}.

(** The node [netG(noise)] leaves in the graph: the parameters and the
    input it was computed from. *)
Record GenNode := { gn_theta : ParamG; gn_buf : BufG; gn_noise : Latent }.

Inductive Provenance := Real | Fake.

(** An image batch: its data, where it comes from, and its [grad_fn]
    ([None] for a leaf that does not require grad). *)
Record ImgTensor := {
  img_data : Image;
  img_src : Provenance;
  img_grad_fn : option GenNode
}.

(** [fake.detach()] *)
Definition detach (t : ImgTensor) : ImgTensor :=
  {| img_data := img_data t; img_src := img_src t; img_grad_fn := None |}.

(** [x.requires_grad] *)
Definition requires_grad (t : ImgTensor) : bool :=
  match img_grad_fn t with
  | Some _ => true
  | None => false
  end.

(** [netD(x).view(-1)]: the scores with the node of the forward pass. *)
Record OutTensor := {
  out_data : Score;
  out_theta : ParamD;
  out_buf : BufD;
  out_input : ImgTensor
}.

(** [criterion(output, label)] *)
Record LossTensor := {
  item : Scalar;
  loss_out : OutTensor;
  loss_label : Label
}.

(** ** The state of a run *)

Record GenState := {
  thetaG : ParamG; bufG : BufG; gradG : option GradG; optG : AdamG
}.

Record DiscState := {
  thetaD : ParamD; bufD : BufD; gradD : option GradD; optD : AdamD
}.

Inductive Event :=
| EvNext
| EvZeroGradD
| EvZeroGradG
| EvGenerate
| EvForwardD (src : Provenance) (attached : bool)
| EvBackward (target : Q) (into_G : bool)
| EvStepD
| EvStepG
| EvAppend
| EvSnapshot.

Record State := {
  rng : RNG;
  gen : GenState;
  disc : DiscState;
  G_losses : list Scalar;
  D_losses : list Scalar;
  img_list : list Grid;
  iters : nat;
  (* what is left of the current pass over train_loader *)
  pending : list Image;
  (* the calls made so far, oldest first *)
  log : list Event
}.

Definition with_rng (r : RNG) (s : State) : State :=
  {| rng := r; gen := gen s; disc := disc s; G_losses := G_losses s;
     D_losses := D_losses s; img_list := img_list s; iters := iters s;
     pending := pending s; log := log s |}.

Definition with_gen (g : GenState) (s : State) : State :=
  {| rng := rng s; gen := g; disc := disc s; G_losses := G_losses s;
     D_losses := D_losses s; img_list := img_list s; iters := iters s;
     pending := pending s; log := log s |}.

Definition with_disc (d : DiscState) (s : State) : State :=
  {| rng := rng s; gen := gen s; disc := d; G_losses := G_losses s;
     D_losses := D_losses s; img_list := img_list s; iters := iters s;
     pending := pending s; log := log s |}.

Definition with_pending (p : list Image) (s : State) : State :=
  {| rng := rng s; gen := gen s; disc := disc s; G_losses := G_losses s;
     D_losses := D_losses s; img_list := img_list s; iters := iters s;
     pending := p; log := log s |}.

Definition emit (e : Event) (s : State) : State :=
  {| rng := rng s; gen := gen s; disc := disc s; G_losses := G_losses s;
     D_losses := D_losses s; img_list := img_list s; iters := iters s;
     pending := pending s; log := log s ++ [e] |}.

(** ** The calls of a training step *)

(** [netD.zero_grad()] *)
Definition zero_grad_D (s : State) : State :=
  let d := disc s in
  emit EvZeroGradD
    (with_disc {| thetaD := thetaD d; bufD := bufD d; gradD := None; optD := optD d |} s).

(** [netG.zero_grad()] *)
Definition zero_grad_G (s : State) : State :=
  let g := gen s in
  emit EvZeroGradG
    (with_gen {| thetaG := thetaG g; bufG := bufG g; gradG := None; optG := optG g |} s).

(** [noise = torch.randn(b_size, nz, 1, 1); fake = netG(noise)] *)
Definition generate (sc : Sched) (b_size nz : nat) (s : State) : ImgTensor * State :=
  let z := randn (rng s) b_size nz in
  let noise := fst z in
  let g := gen s in
  let y := G_forward sc (thetaG g) (bufG g) noise in
  ({| img_data := fst y; img_src := Fake;
      img_grad_fn := Some {| gn_theta := thetaG g; gn_buf := bufG g; gn_noise := noise |} |},
   emit EvGenerate
     (with_gen {| thetaG := thetaG g; bufG := snd y; gradG := gradG g; optG := optG g |}
        (with_rng (snd z) s))).

(** [output = netD(x).view(-1)] *)
Definition forward_D (sc : Sched) (x : ImgTensor) (s : State) : OutTensor * State :=
  let d := disc s in
  let y := D_forward sc (thetaD d) (bufD d) (img_data x) in
  ({| out_data := fst y; out_theta := thetaD d; out_buf := bufD d; out_input := x |},
   emit (EvForwardD (img_src x) (requires_grad x))
     (with_disc {| thetaD := thetaD d; bufD := snd y; gradD := gradD d; optD := optD d |} s)).

(** [criterion(output, label)] *)
Definition criterion (sc : Sched) (o : OutTensor) (l : Label) : LossTensor :=
  {| item := bce sc (out_data o) l; loss_out := o; loss_label := l |}.

(** How [.backward()] writes a [.grad]: it sets a [None] slot and adds to a
    filled one. *)
Definition accumulate {A} (add : A -> A -> A) (slot : option A) (g : A) : option A :=
  match slot with
  | None => Some g
  | Some a => Some (add a g)
  end.

(** [loss.backward()]: netD's parameters always receive a gradient; netG's
    receive one exactly when the image batch fed to netD carries the
    [grad_fn] that leads back to them. *)
Definition backward (sc : Sched) (l : LossTensor) (s : State) : State :=
  let o := loss_out l in
  let x := out_input o in
  let d := disc s in
  let gd := bce_grad_D sc (out_theta o) (out_buf o) (img_data x) (loss_label l) in
  let s1 :=
    with_disc {| thetaD := thetaD d; bufD := bufD d;
                 gradD := accumulate grad_add_D (gradD d) gd; optD := optD d |} s in
  match img_grad_fn x with
  | None => emit (EvBackward (label_fill (loss_label l)) false) s1
  | Some n =>
      let g := gen s1 in
      let gg := bce_grad_G sc (gn_theta n) (gn_buf n) (gn_noise n)
                  (out_theta o) (out_buf o) (loss_label l) in
      emit (EvBackward (label_fill (loss_label l)) true)
        (with_gen {| thetaG := thetaG g; bufG := bufG g;
                     gradG := accumulate grad_add_G (gradG g) gg; optG := optG g |} s1)
  end.

(** [optimizerD.step()]: Adam skips a parameter whose [.grad] is [None]. *)
Definition step_D (sc : Sched) (s : State) : State :=
  let d := disc s in
  emit EvStepD
    match gradD d with
    | None => s
    | Some g =>
        let u := adam_D sc (optD d) (thetaD d) g in
        with_disc {| thetaD := fst u; bufD := bufD d; gradD := gradD d; optD := snd u |} s
    end.

(** [optimizerG.step()] *)
Definition step_G (sc : Sched) (s : State) : State :=
  let g := gen s in
  emit EvStepG
    match gradG g with
    | None => s
    | Some gr =>
        let u := adam_G sc (optG g) (thetaG g) gr in
        with_gen {| thetaG := fst u; bufG := bufG g; gradG := gradG g; optG := snd u |} s
    end.

(** [G_losses.append(errG.item()); D_losses.append(errD.item())] *)
Definition append_losses (errG errD : Scalar) (s : State) : State :=
  {| rng := rng s; gen := gen s; disc := disc s;
     G_losses := G_losses s ++ [errG]; D_losses := D_losses s ++ [errD];
     img_list := img_list s; iters := iters s;
     pending := pending s; log := log s ++ [EvAppend] |}.

(** [iters += 1] *)
Definition incr_iters (s : State) : State :=
  {| rng := rng s; gen := gen s; disc := disc s; G_losses := G_losses s;
     D_losses := D_losses s; img_list := img_list s; iters := S (iters s);
     pending := pending s; log := log s |}.

(** [len(train_loader)]: the number of batches, the last one may be short. *)
Definition len_loader (batch_size : nat) : nat :=
  (dataset_len + batch_size - 1) / batch_size.

(** One pass over [train_loader]: a new shuffle, then its batches in order. *)
Definition start_pass (batch_size : nat) (s : State) : list Image * State :=
  let it := loader_iter (rng s) in
  (map (fst it) (seq 0 (len_loader batch_size)), with_rng (snd it) s).

(** ** The blocks of a training step

    Both scripts spell the step out inline, with the same statements in
    the same order: [DCGAN.py] lines 203-245, [nlzl16_generative_model.py]
    lines 213-264. *)

(** Phase D on the real batch: zero netD's gradients, forward the batch,
    take the loss against the smoothed real label, backward. *)
Definition D_real_pass (sc : Sched) (real_label : Q) (data : Image) (s : State)
  : Label * LossTensor * State :=
  let s := zero_grad_D s in
  let x := {| img_data := data; img_src := Real; img_grad_fn := None |} in
  let b_size := size0 data in
  let label := full b_size real_label in
  let '(output, s) := forward_D sc x s in
  let errD_real := criterion sc output label in
  (label, errD_real, backward sc errD_real s).

(** Phase D on the fake batch: netD sees [fake.detach()]. *)
Definition D_fake_pass (sc : Sched) (fake_label : Q) (label : Label)
    (fake : ImgTensor) (s : State) : Label * LossTensor * State :=
  let label := fill_ label fake_label in
  let '(output, s) := forward_D sc (detach fake) s in
  let errD_fake := criterion sc output label in
  (label, errD_fake, backward sc errD_fake s).

(** Phase G up to the backward pass: netD sees [fake] itself. *)
Definition G_pass (sc : Sched) (real_label : Q) (label : Label)
    (fake : ImgTensor) (s : State) : LossTensor * State :=
  let s := zero_grad_G s in
  let label := fill_ label real_label in
  let '(output, s) := forward_D sc fake s in
  let errG := criterion sc output label in
  (errG, backward sc errG s).

(** [with torch.no_grad(): img = netG(fixed_noise).detach().cpu()], then
    [vutils.make_grid(img, padding=2, normalize=True)]; netG is in train
    mode, so its running statistics move. *)
Definition snapshot (sc : Sched) (fixed_noise : Latent) (s : State) : Grid * State :=
  let g := gen s in
  let y := G_forward sc (thetaG g) (bufG g) fixed_noise in
  (make_grid (fst y),
   emit EvSnapshot
     (with_gen {| thetaG := thetaG g; bufG := snd y; gradG := gradG g; optG := optG g |} s)).

(** A [for] loop whose body may fail to return. *)
Fixpoint for_each {A S : Type} (body : A -> S -> option S) (l : list A) (s : S)
  : option S :=
  match l with
  | [] => Some s
  | x :: rest =>
      match body x s with
      | None => None
      | Some s' => for_each body rest s'
      end
  end.

(** What the scripts build before the loop, in their order: the two
    networks with their weights initialised, [fixed_noise], the two Adam
    optimizers, and the empty lists. *)
Definition initial_state (seed batch_size nz : nat) : Latent * State :=
  let r0 := manual_seed seed in
  let g := init_G r0 in
  let d := init_D (snd g) in
  let z := randn (snd d) batch_size nz in
  (fst z,
   {| rng := snd z;
      gen := {| thetaG := fst (fst g); bufG := snd (fst g); gradG := None;
                optG := adam_init_G (fst (fst g)) |};
      disc := {| thetaD := fst (fst d); bufD := snd (fst d); gradD := None;
                 optD := adam_init_D (fst (fst d)) |};
      G_losses := []; D_losses := []; img_list := []; iters := 0;
      pending := []; log := [] |}).

End Trainer.

(** ** One step as the specification words it

    Phase D, steps 1 to 6, and Phase G, steps 1 to 5: the values each step
    of the protocol names, computed from the state the step starts in. This
    definition follows the specification; it is the one the scripts' steps
    are compared with. *)
Record StepSpec `{T : Torch} := {
  sp_errD_real : Scalar;   (* D 2: loss of the real batch against real_label *)
  sp_gradD_real : GradD;   (* D 2: its gradient, not yet applied *)
  sp_fake : Image;         (* D 3: the fake batch of a fresh latent batch *)
  sp_errD_fake : Scalar;   (* D 4: loss of the detached fake batch *)
  sp_gradD_fake : GradD;   (* D 4: its gradient *)
  sp_thetaD : ParamD;      (* D 5: one optimizer step on the summed gradients *)
  sp_errD : Scalar;        (* D 6: errD = errD_real + errD_fake *)
  sp_errG : Scalar;        (* G 2: loss of the same fake batch against real_label *)
  sp_gradG : GradG;        (* G 3: the gradient that reaches netG *)
  sp_thetaG : ParamG       (* G 4: one optimizer step of netG *)
}.

Definition step_spec `{T : Torch} (sc : Sched) (real_label fake_label : Q) (nz : nat)
    (data : Image) (s : State) : StepSpec :=
  let d := disc s in
  let g := gen s in
  let b := size0 data in
  let out_real := D_forward sc (thetaD d) (bufD d) data in
  let g_real := bce_grad_D sc (thetaD d) (bufD d) data (full b real_label) in
  let noise := fst (randn (rng s) b nz) in
  let fake := fst (G_forward sc (thetaG g) (bufG g) noise) in
  let out_fake := D_forward sc (thetaD d) (snd out_real) fake in
  let g_fake := bce_grad_D sc (thetaD d) (snd out_real) fake (full b fake_label) in
  let thD := fst (adam_D sc (optD d) (thetaD d) (grad_add_D g_real g_fake)) in
  let out_G := D_forward sc thD (snd out_fake) fake in
  let g_G := bce_grad_G sc (thetaG g) (bufG g) noise thD (snd out_fake) (full b real_label) in
  {| sp_errD_real := bce sc (fst out_real) (full b real_label);
     sp_gradD_real := g_real;
     sp_fake := fake;
     sp_errD_fake := bce sc (fst out_fake) (full b fake_label);
     sp_gradD_fake := g_fake;
     sp_thetaD := thD;
     sp_errD := scalar_add (bce sc (fst out_real) (full b real_label))
                           (bce sc (fst out_fake) (full b fake_label));
     sp_errG := bce sc (fst out_G) (full b real_label);
     sp_gradG := g_G;
     sp_thetaG := fst (adam_G sc (optG g) (thetaG g) g_G) |}.

(** The optimizer steps among the calls of a run. *)
Definition is_step (e : Event) : bool :=
  match e with
  | EvStepD | EvStepG => true
  | _ => false
  end.

(** The backward passes among the calls of a run. *)
Definition is_backward (e : Event) : bool :=
  match e with
  | EvBackward _ _ => true
  | _ => false
  end.

(** The calls of Phase D and of Phase G of one step, with the labels of
    the step. *)
Definition phase_D_events (real_label fake_label : Q) : list Event :=
  [ EvZeroGradD; EvForwardD Real false; EvBackward real_label false;
    EvGenerate; EvForwardD Fake false; EvBackward fake_label false; EvStepD ].

Definition phase_G_events (real_label : Q) : list Event :=
  [ EvZeroGradG; EvForwardD Fake true; EvBackward real_label true; EvStepG ].

(** The kernels of the device give results that do not depend on its
    scheduling. *)
Definition deterministic_kernels (T : Torch) : Prop :=
  (forall sc sc' th b z, G_forward sc th b z = G_forward sc' th b z) /\
  (forall sc sc' th b x, D_forward sc th b x = D_forward sc' th b x) /\
  (forall sc sc' y l, bce sc y l = bce sc' y l) /\
  (forall sc sc' th b x l, bce_grad_D sc th b x l = bce_grad_D sc' th b x l) /\
  (forall sc sc' tg bg z td bd l,
      bce_grad_G sc tg bg z td bd l = bce_grad_G sc' tg bg z td bd l) /\
  (forall sc sc' o th g, adam_G sc o th g = adam_G sc' o th g) /\
  (forall sc sc' o th g, adam_D sc o th g = adam_D sc' o th g).

(** A small instance of the interface over the integers, on which the
    loops can be run, for a data set of [n] images; its kernels ignore the
    scheduling. *)
Definition toy_data (n : nat) : Torch :=
  {| RNG := nat; Sched := bool; Latent := Z; Image := Z; Score := Z;
     Scalar := Z; Grid := Z;
     ParamG := Z; BufG := nat; GradG := Z; AdamG := nat;
     ParamD := Z; BufD := nat; GradD := Z; AdamD := nat;
     manual_seed := fun n => n;
     randn := fun r b nz => (Z.of_nat (r + b + nz), S r);
     dataset_len := n;
     loader_iter := fun r => (fun i => Z.of_nat (i + r), S r);
     size0 := fun _ => 2;
     init_G := fun r => (1%Z, 0, S r);
     init_D := fun r => (2%Z, 0, S r);
     adam_init_G := fun _ => 0;
     adam_init_D := fun _ => 0;
     G_forward := fun _ th b z => ((th * z)%Z, S b);
     D_forward := fun _ th b x => ((th + x)%Z, S b);
     bce := fun _ y l => (y * y + Z.of_nat (label_size l))%Z;
     bce_grad_D := fun _ th _ x _ => (th - x)%Z;
     bce_grad_G := fun _ tg _ z td _ _ => (tg * td - z)%Z;
     grad_add_G := Z.add;
     grad_add_D := Z.add;
     adam_G := fun _ o th g => ((th - g)%Z, S o);
     adam_D := fun _ o th g => ((th - g)%Z, S o);
     scalar_add := Z.add;
     make_grid := fun x => x |}.

Definition toy : Torch := toy_data 5.

(** The train split of CIFAR-100 has 50000 images. *)
Definition CIFAR100_train_len : nat := 50000.

(** ** [DCGAN.py] *)

Module DCGAN.

Record Params := {
  batch_size : nat;
  nc : nat;
  n_epochs : nat;
  nz : nat;
  real_label : Q;
  fake_label : Q;
  dim : nat;
  ngf : nat;
  ndf : nat
}.

Definition params : Params :=
  {| batch_size := 128; nc := 3; n_epochs := 50; nz := 100;
     real_label := 9 # 10; fake_label := 0; dim := 32; ngf := 64; ndf := 64 |}.

Definition SEED : nat := 0.

Section Loop.
Context {T : Torch}.

(** [cycle(train_loader)] and [next(train_iterator)]: when a pass is
    exhausted the generator starts the next one; on an empty loader it never
    yields, which is [None] here. *)
Definition next_batch (p : Params) (s : State) : option (Image * State) :=
  match pending s with
  | x :: rest => Some (x, emit EvNext (with_pending rest s))
  | [] =>
      let '(l, s') := start_pass (batch_size p) s in
      match l with
      | [] => None
      | x :: rest => Some (x, emit EvNext (with_pending rest s'))
      end
  end.

(** Lines 203-254: one update of netD, one of netG, the two losses
    appended. *)
Definition train_step (p : Params) (sc : Sched) (data : Image) (s : State) : State :=
  let '(label, errD_real, s) := D_real_pass sc (real_label p) data s in
  let '(fake, s) := generate sc (size0 data) (nz p) s in
  let '(label, errD_fake, s) := D_fake_pass sc (fake_label p) label fake s in
  let errD := scalar_add (item errD_real) (item errD_fake) in
  let s := step_D sc s in
  let '(errG, s) := G_pass sc (real_label p) label fake s in
  let s := step_G sc s in
  append_losses (item errG) errD s.

(** Lines 257-260: the guard of the sample for visualisation, on Python
    integers. *)
Definition snapshot_due (p : Params) (epoch i : nat) : bool :=
  (epoch + 1 =? n_epochs p) && (Z.of_nat i =? Z.of_nat (len_loader (batch_size p)) - 1)%Z.

(** The body of the inner loop, lines 197-262; [oracle n] is the
    scheduling the device follows during step number [n]. *)
Definition loop_body (p : Params) (oracle : nat -> Sched) (fixed_noise : Latent)
    (epoch i : nat) (s : State) : option State :=
  match next_batch p s with
  | None => None
  | Some (data, s) =>
      let sc := oracle (iters s) in
      let s := train_step p sc data s in
      let s :=
        if snapshot_due p epoch i then
          let '(grid, s) := snapshot sc fixed_noise s in
          {| rng := rng s; gen := gen s; disc := disc s; G_losses := G_losses s;
             D_losses := D_losses s; img_list := img_list s ++ [grid];
             iters := iters s; pending := pending s; log := log s |}
        else s in
      Some (incr_iters s)
  end.

Definition steps_per_epoch : nat := 1000.

(** [for epoch in range(n_epochs): for i in range(1000): ...] *)
Definition train (p : Params) (oracle : nat -> Sched) (fixed_noise : Latent)
    (s : State) : option State :=
  for_each
    (fun epoch => for_each (loop_body p oracle fixed_noise epoch) (seq 0 steps_per_epoch))
    (seq 0 (n_epochs p)) s.

(** The script up to the end of training. *)
Definition run (p : Params) (oracle : nat -> Sched) : option State :=
  let '(fixed_noise, s) := initial_state SEED (batch_size p) (nz p) in
  train p oracle fixed_noise s.

(** [img_list[-1]]: the last element, an IndexError ([None]) on an empty
    list. *)
Definition last_image (l : list Grid) : option Grid :=
  match l with
  | [] => None
  | _ => l !! (length l - 1)
  end.

End Loop.
End DCGAN.

(** ** [nlzl16_generative_model.py] *)

Module Nlzl16.

Record Params := {
  batch_size : nat;
  nc : nat;
  step : nat;
  nz : nat;
  real_label : Q;
  fake_label : Q;
  dim : nat;
  ngf : nat;
  ndf : nat
}.

Definition params : Params :=
  {| batch_size := 64; nc := 3; step := 50000; nz := 128;
     real_label := 9 # 10; fake_label := 0; dim := 32; ngf := 64; ndf := 64 |}.

Definition SEED : nat := 0.

Section Loop.
Context {T : Torch}.

(** Lines 213-264: one update of netD and one of netG; the result carries
    [errG.item()] and [errD.item()]. *)
Definition train_step (p : Params) (sc : Sched) (data : Image) (s : State)
  : Scalar * Scalar * State :=
  let '(label, errD_real, s) := D_real_pass sc (real_label p) data s in
  let '(fake, s) := generate sc (size0 data) (nz p) s in
  let '(label, errD_fake, s) := D_fake_pass sc (fake_label p) label fake s in
  let errD := scalar_add (item errD_fake) (item errD_real) in
  let s := step_D sc s in
  let '(errG, s) := G_pass sc (real_label p) label fake s in
  let s := step_G sc s in
  (item errG, errD, s).

(** The body of the [for] loop for one batch once the [break] test has
    passed, lines 213-282; every 5000 steps netG is sampled on
    [fixed_noise] for a figure. [oracle n] is the scheduling the device
    follows during step number [n]. *)
Definition loop_body (p : Params) (oracle : nat -> Sched) (fixed_noise : Latent)
    (data : Image) (s : State) : State :=
  let sc := oracle (iters s) in
  let '(errG, errD, s') := train_step p sc data s in
  let s' := if iters s mod 5000 =? 0 then snd (snapshot sc fixed_noise s') else s' in
  incr_iters (append_losses errG errD s').

(** [for i, data in enumerate(train_loader, 0): if iters >= step: break; ...] *)
Fixpoint for_batches (p : Params) (oracle : nat -> Sched) (fixed_noise : Latent)
    (batches : list Image) (s : State) : State :=
  match batches with
  | [] => s
  | data :: rest =>
      if step p <=? iters s then s
      else for_batches p oracle fixed_noise rest
             (loop_body p oracle fixed_noise data (emit EvNext s))
  end.

(** [while iters < step: for ...]; [fuel] bounds the number of passes over
    the loader, [None] is a loop still running when it is used up. *)
Fixpoint train (fuel : nat) (p : Params) (oracle : nat -> Sched) (fixed_noise : Latent)
    (s : State) : option State :=
  if iters s <? step p then
    match fuel with
    | 0 => None
    | S fuel' =>
        let '(batches, s') := start_pass (batch_size p) s in
        train fuel' p oracle fixed_noise (for_batches p oracle fixed_noise batches s')
    end
  else Some s.

Definition run (fuel : nat) (p : Params) (oracle : nat -> Sched) : option State :=
  let '(fixed_noise, s) := initial_state SEED (batch_size p) (nz p) in
  train fuel p oracle fixed_noise s.

End Loop.
End Nlzl16.

(** ** Layer shapes

    [nn.Sequential] is a list of layers; each layer maps the shape
    (N, C, H, W) of its input to the shape of its output or raises. *)

Inductive Layer :=
| ConvTranspose2d (in_channels out_channels kernel_size stride padding : nat)
| Conv2d (in_channels out_channels kernel_size stride padding : nat)
| BatchNorm2d (num_features : nat)
| ReLU
| LeakyReLU
| Tanh
| Sigmoid.

Definition Shape : Type := nat * nat * nat * nat.

(** (H - 1) * stride - 2 * padding + (kernel_size - 1) + 1, with dilation 1
    and output_padding 0. *)
Definition conv_transpose_out (h k s p : nat) : Z :=
  (Z.of_nat h - 1) * Z.of_nat s - 2 * Z.of_nat p + (Z.of_nat k - 1) + 1.

(** floor((H + 2 * padding - (kernel_size - 1) - 1) / stride) + 1, with
    dilation 1. *)
Definition conv_out (h k s p : nat) : Z :=
  (Z.of_nat h + 2 * Z.of_nat p - (Z.of_nat k - 1) - 1) / Z.of_nat s + 1.

Definition layer_shape (l : Layer) (x : Shape) : option Shape :=
  let '(n, c, h, w) := x in
  match l with
  | ConvTranspose2d cin cout k s p =>
      let h' := conv_transpose_out h k s p in
      let w' := conv_transpose_out w k s p in
      if (c =? cin) && (0 <? h')%Z && (0 <? w')%Z
      then Some (n, cout, Z.to_nat h', Z.to_nat w') else None
  | Conv2d cin cout k s p =>
      let h' := conv_out h k s p in
      let w' := conv_out w k s p in
      if (c =? cin) && (k <=? h + 2 * p) && (k <=? w + 2 * p)
      then Some (n, cout, Z.to_nat h', Z.to_nat w') else None
  | BatchNorm2d f =>
      (* in train mode a channel needs more than one value *)
      if (c =? f) && (1 <? n * h * w) then Some x else None
  | ReLU | LeakyReLU | Tanh | Sigmoid => Some x
  end.

Fixpoint sequential_shape (layers : list Layer) (x : Shape) : option Shape :=
  match layers with
  | [] => Some x
  | l :: rest =>
      match layer_shape l x with
      | None => None
      | Some y => sequential_shape rest y
      end
  end.

Module DCGAN_nets.

(** [Generator.__init__], lines 59-76. *)
Definition Generator (nc nz ngf : nat) : list Layer :=
  [ ConvTranspose2d nz (ngf * 2) 3 1 0; BatchNorm2d (ngf * 2); ReLU;
    ConvTranspose2d (ngf * 2) (ngf * 2) 3 2 1; BatchNorm2d (ngf * 2); ReLU;
    ConvTranspose2d (ngf * 2) (ngf * 2) 3 2 1; BatchNorm2d (ngf * 2); ReLU;
    ConvTranspose2d (ngf * 2) ngf 3 2 1; BatchNorm2d ngf; ReLU;
    ConvTranspose2d ngf nc 3 2 1; Tanh ].

(** [Discriminator.__init__], lines 83-99. *)
Definition Discriminator (nc ndf : nat) : list Layer :=
  [ Conv2d nc ndf 2 2 1; LeakyReLU;
    Conv2d ndf (ndf * 2) 3 2 1; BatchNorm2d (ndf * 2); LeakyReLU;
    Conv2d (ndf * 2) (ndf * 2) 3 2 1; BatchNorm2d (ndf * 2); LeakyReLU;
    Conv2d (ndf * 2) (ndf * 2) 3 2 1; BatchNorm2d (ndf * 2); LeakyReLU;
    Conv2d (ndf * 2) 1 3 1 0; Sigmoid ].

Definition netG : list Layer :=
  Generator (DCGAN.nc DCGAN.params) (DCGAN.nz DCGAN.params) (DCGAN.ngf DCGAN.params).

Definition netD : list Layer :=
  Discriminator (DCGAN.nc DCGAN.params) (DCGAN.ndf DCGAN.params).

End DCGAN_nets.

Module Nlzl16_nets.

(** [Generator()], lines 59-67: the layers applied to the symbolic input,
    the middle block three times. *)
Definition Generator (p : Nlzl16.Params) : list Layer :=
  [ ConvTranspose2d (Nlzl16.nz p) (Nlzl16.ngf p * 2) 3 1 0;
    BatchNorm2d (Nlzl16.ngf p * 2); ReLU ]
  ++ concat (replicate 3
       [ ConvTranspose2d (Nlzl16.ngf p * 2) (Nlzl16.ngf p * 2) 3 2 1;
         BatchNorm2d (Nlzl16.ngf p * 2); ReLU ])
  ++ [ ConvTranspose2d (Nlzl16.ngf p * 2) (Nlzl16.nc p) 4 2 2; Tanh ].

(** [Discriminator()], lines 71-81; spectral normalisation does not change
    a shape. *)
Definition Discriminator (p : Nlzl16.Params) : list Layer :=
  [ Conv2d (Nlzl16.nc p) (Nlzl16.ndf p) 2 2 1;
    BatchNorm2d (Nlzl16.ndf p); LeakyReLU;
    Conv2d (Nlzl16.ndf p) (Nlzl16.ndf p * 2) 3 2 1;
    BatchNorm2d (Nlzl16.ndf p * 2); LeakyReLU ]
  ++ concat (replicate 2
       [ Conv2d (Nlzl16.ndf p * 2) (Nlzl16.ndf p * 2) 3 2 1;
         BatchNorm2d (Nlzl16.ndf p * 2); LeakyReLU ])
  ++ [ Conv2d (Nlzl16.ndf p * 2) 1 3 1 0; Sigmoid ].

Definition netG : list Layer := Generator Nlzl16.params.
Definition netD : list Layer := Discriminator Nlzl16.params.

End Nlzl16_nets.

(** ** Tensors for the interpolation block

    A tensor is its shape and its elements in row-major order. The element
    type and its arithmetic are those of the device (float32). *)

Inductive TorchError :=
| IndexError        (* slicing a 0-dim tensor *)
| RepeatDims        (* Number of dimensions of repeat dims can not be smaller
                       than number of dimensions of tensor *)
| ViewSize          (* shape is invalid for input of this size *)
| BroadcastSize     (* The size of tensor a must match the size of tensor b *)
| ConvInput.        (* the network is given an input it cannot convolve *)

Inductive Result (A : Type) :=
| Ok (a : A)
| Raise (e : TorchError).
Arguments Ok {A} a.
Arguments Raise {A} e.

Definition bind {A B : Type} (r : Result A) (k : A -> Result B) : Result B :=
  match r with
  | Ok a => k a
  | Raise e => Raise e
  end.

Notation "'do' x <~ r ; k" := (bind r (fun x => k))
  (at level 10, x name, r at level 100, k at level 200).

Class Float := {
  F : Type;
  f_zero : F;
  f_one : F;
  f_add : F -> F -> F;
  f_sub : F -> F -> F;
  f_mul : F -> F -> F;
  (* the i-th of the [steps] points of torch.linspace(0, 1, steps) *)
  f_linspace : nat -> nat -> F
}.

Section Tensors.
Context {Fl : Float}.

Record Tensor := { shape : list nat; data : list F }.

Definition numel (sh : list nat) : nat := foldr Nat.mul 1 sh.

(** [n] consecutive pieces of [k] elements. *)
Fixpoint split_into (n k : nat) (d : list F) : list (list F) :=
  match n with
  | 0 => []
  | S n' => take k d :: split_into n' k (drop k d)
  end.

(** [t[a:b]] on the first dimension, for [0 <= a] and [0 <= b]. *)
Definition slice0 (a b : nat) (t : Tensor) : Result Tensor :=
  match shape t with
  | [] => Raise IndexError
  | n :: rest =>
      let lo := Nat.min a n in
      let hi := Nat.max lo (Nat.min b n) in
      let k := numel rest in
      Ok {| shape := (hi - lo) :: rest;
            data := take ((hi - lo) * k) (drop (lo * k) (data t)) |}
  end.

(** [t[a:]] *)
Definition slice_from (a : nat) (t : Tensor) : Result Tensor :=
  match shape t with
  | [] => Raise IndexError
  | n :: _ => slice0 a n t
  end.

Fixpoint repeat_data (sizes sh : list nat) (d : list F) : list F :=
  match sizes, sh with
  | r :: rs, n :: ns =>
      concat (replicate r (concat (map (repeat_data rs ns) (split_into n (numel ns) d))))
  | _, _ => d
  end.

(** [t.repeat(sizes)] *)
Definition repeat (sizes : list nat) (t : Tensor) : Result Tensor :=
  if length sizes <? length (shape t) then Raise RepeatDims
  else
    let sh := replicate (length sizes - length (shape t)) 1 ++ shape t in
    Ok {| shape := zip_with Nat.mul sizes sh; data := repeat_data sizes sh (data t) |}.

(** [torch.linspace(0, 1, steps)] *)
Definition linspace (steps : nat) : Tensor :=
  {| shape := [steps]; data := map (f_linspace steps) (seq 0 steps) |}.

(** [t.unsqueeze(1)] *)
Definition unsqueeze1 (t : Tensor) : Result Tensor :=
  match shape t with
  | [] => Raise IndexError
  | n :: rest => Ok {| shape := n :: 1 :: rest; data := data t |}
  end.

(** [t.view(sh)] *)
Definition view (sh : list nat) (t : Tensor) : Result Tensor :=
  if numel sh =? numel (shape t) then Ok {| shape := sh; data := data t |}
  else Raise ViewSize.

(** The shape two operands broadcast to, both given with the same number
    of dimensions. *)
Fixpoint broadcast_shape (a b : list nat) : Result (list nat) :=
  match a, b with
  | [], [] => Ok []
  | n :: a', m :: b' =>
      do rest <~ broadcast_shape a' b';
      if n =? m then Ok (n :: rest)
      else if n =? 1 then Ok (m :: rest)
      else if m =? 1 then Ok (n :: rest)
      else Raise BroadcastSize
  | _, _ => Raise BroadcastSize
  end.

Fixpoint expand_data (target sh : list nat) (d : list F) : list F :=
  match target, sh with
  | n :: ts, m :: ms =>
      if m =? n then concat (map (expand_data ts ms) (split_into m (numel ms) d))
      else concat (replicate n (expand_data ts ms d))
  | _, _ => d
  end.

Definition pad_left (k : nat) (sh : list nat) : list nat :=
  replicate (k - length sh) 1 ++ sh.

(** An element-wise binary operation with broadcasting. *)
Definition binop (f : F -> F -> F) (a b : Tensor) : Result Tensor :=
  let k := Nat.max (length (shape a)) (length (shape b)) in
  let sa := pad_left k (shape a) in
  let sb := pad_left k (shape b) in
  do sh <~ broadcast_shape sa sb;
  Ok {| shape := sh;
        data := zip_with f (expand_data sh sa (data a)) (expand_data sh sb (data b)) |}.

(** [1 - t] *)
Definition one_minus (t : Tensor) : Tensor :=
  {| shape := shape t; data := map (f_sub f_one) (data t) |}.

(** [lerp_z = (1 - t) * z0 + t * z1] *)
Definition lerp (t z0 z1 : Tensor) : Result Tensor :=
  do x <~ binop f_mul (one_minus t) z0;
  do y <~ binop f_mul t z1;
  binop f_add x y.

(** [int(np.sqrt(batch_size))] *)
Definition col_size (batch_size : nat) : nat := Nat.sqrt batch_size.

(** [DCGAN.py], lines 270-277, from [sample_noise] to [lerp_z]. *)
Definition DCGAN_interpolation (p : DCGAN.Params) (sample_noise : Tensor) : Result Tensor :=
  let c := col_size (DCGAN.batch_size p) in
  do a <~ slice0 0 c sample_noise;
  do z0 <~ repeat [c; 1] a;
  do b <~ slice_from (DCGAN.batch_size p - c) sample_noise;
  do z1 <~ repeat [c; 1] b;
  do u <~ unsqueeze1 (linspace c);
  do r <~ repeat [1; c] u;
  do t <~ view [DCGAN.batch_size p; 1] r;
  lerp t z0 z1.

(** [nlzl16_generative_model.py], lines 290-296: the two endpoints and
    the fractions of the grid. *)
Definition Nlzl16_endpoints (p : Nlzl16.Params) (sample_noise : Tensor)
  : Result (Tensor * Tensor * Tensor) :=
  let c := col_size (Nlzl16.batch_size p) in
  do a <~ slice0 0 c sample_noise;
  do z0 <~ repeat [c; 1; 1; 1] a;
  do b <~ slice_from (Nlzl16.batch_size p - c) sample_noise;
  do z1 <~ repeat [c; 1; 1; 1] b;
  do u <~ unsqueeze1 (linspace c);
  do r <~ repeat [1; c] u;
  do t <~ view [Nlzl16.batch_size p; 1; 1; 1] r;
  Ok (t, z0, z1).

(** Lines 290-297, from [sample_noise] to [lerp_z]. *)
Definition Nlzl16_interpolation (p : Nlzl16.Params) (sample_noise : Tensor)
  : Result Tensor :=
  do e <~ Nlzl16_endpoints p sample_noise;
  lerp (fst (fst e)) (snd (fst e)) (snd e).

(** [sample_noise] of [nlzl16_generative_model.py]: 64 x 128 x 1 x 1, its
    element at flat index [k] being [z k]. *)
Definition Nlzl16_sample (z : N -> F) : Tensor :=
  {| shape := [64; 128; 1; 1]; data := map (fun k => z (N.of_nat k)) (seq 0 8192) |}.

(** The elements of [z0], [z1] and [t] at flat index [k] of the grid, row
    [k / 128] and column [k mod 128]: row [i] of [z0] is row [i mod 8] of
    [sample_noise], row [i] of [z1] is its row [56 + i mod 8], and the
    fraction of row [i] is the point number [i / 8] of the linspace. *)
Definition Nlzl16_z0_elem (z : N -> F) (k : N) : F :=
  z ((k / 128 mod 8) * 128 + k mod 128)%N.

Definition Nlzl16_z1_elem (z : N -> F) (k : N) : F :=
  z ((56 + k / 128 mod 8) * 128 + k mod 128)%N.

Definition Nlzl16_t_elem (i : N) : F := f_linspace 8 (N.to_nat (i / 8)).

(** (1 - t) * z0 + t * z1 at flat index [k]. *)
Definition Nlzl16_lerp_elem (z : N -> F) (k : N) : F :=
  let t := Nlzl16_t_elem (k / 128) in
  f_add (f_mul (f_sub f_one t) (Nlzl16_z0_elem z k)) (f_mul t (Nlzl16_z1_elem z k)).

(** What float arithmetic gives at the two ends of [torch.linspace(0, 1, 8)]
    on finite values, up to the sign of a zero. *)
Definition endpoint_laws : Prop :=
  f_linspace 8 0 = f_zero /\ f_linspace 8 7 = f_one /\
  f_sub f_one f_zero = f_one /\ f_sub f_one f_one = f_zero /\
  (forall x, f_mul f_one x = x) /\ (forall x, f_mul f_zero x = f_zero) /\
  (forall x, f_add x f_zero = x) /\ (forall x, f_add f_zero x = x).

End Tensors.

(** ** The image directories

    The working directory maps a name to a plain file or to a directory
    with its file names. *)

Inductive Node :=
| File
| Dir (entries : gset string).

(** [shutil.rmtree(directory)] *)
Definition rmtree (d : string) (fs : gmap string Node) : option (gmap string Node) :=
  match fs !! d with
  | Some (Dir _) => Some (delete d fs)
  | _ => None
  end.

(** [os.makedirs(directory)] *)
Definition makedirs (d : string) (fs : gmap string Node) : option (gmap string Node) :=
  match fs !! d with
  | None => Some (<[d := Dir ∅]> fs)
  | Some _ => None
  end.

(** [os.path.exists(directory)] *)
Definition exists_path (d : string) (fs : gmap string Node) : bool :=
  match fs !! d with
  | Some _ => true
  | None => false
  end.

Definition setup_directory (d : string) (fs : gmap string Node) : option (gmap string Node) :=
  fs' ← (if exists_path d fs then rmtree d fs else Some fs);
  makedirs d fs'.

(** Writing the file [os.path.join(d, name)]. *)
Definition write_in (d name : string) (fs : gmap string Node) : option (gmap string Node) :=
  match fs !! d with
  | Some (Dir files) => Some (<[d := Dir ({[name]} ∪ files)]> fs)
  | _ => None
  end.

(** [plt.savefig(name)] in the working directory. *)
Definition savefig (name : string) (fs : gmap string Node) : option (gmap string Node) :=
  match fs !! name with
  | Some (Dir _) => None
  | _ => Some (<[name := File]> fs)
  end.

Definition real_images_dir : string := "real_images".
Definition generated_images_dir : string := "generated_images".
Definition sample_dir : string := "training_images".

(** [f"gen_img_{n}.png"] *)
Definition gen_img (n : nat) : string := "gen_img_" +:+ pretty n +:+ ".png".

(** [f'sample_{iters}.png'] *)
Definition sample_name (n : nat) : string := "sample_" +:+ pretty n +:+ ".png".

(** [save_image(image, os.path.join(generated_images_dir, ...))] for the
    numbers in [ns], in order. *)
Fixpoint save_images (ns : list nat) (fs : gmap string Node) : option (gmap string Node) :=
  match ns with
  | [] => Some fs
  | n :: rest => fs' ← write_in generated_images_dir (gen_img n) fs; save_images rest fs'
  end.

(** What [fid.compute_fid(real_images_dir, generated_images_dir)] reads. *)
Definition fid_inputs (fs : gmap string Node) : option Node * option Node :=
  (fs !! real_images_dir, fs !! generated_images_dir).

(** [DCGAN.py] after training, lines 286-310: the calls that touch the
    file system, up to what the scorer reads. *)
Definition DCGAN_files (n_samples : nat) (fs : gmap string Node)
  : option (option Node * option Node) :=
  fs ← savefig "Interpolation.png" fs;
  fs ← setup_directory generated_images_dir fs;
  fs ← save_images (seq 0 n_samples) fs;
  fs ← savefig "training_loss.png" fs;
  fs ← savefig "gen_img.png" fs;
  Some (fid_inputs fs).

(** The figures saved during training, line 277: one for each step whose
    number is a multiple of 5000. *)
Fixpoint save_samples (its : list nat) (fs : gmap string Node) : option (gmap string Node) :=
  match its with
  | [] => Some fs
  | i :: rest =>
      if i mod 5000 =? 0 then
        fs' ← write_in sample_dir (sample_name i) fs; save_samples rest fs'
      else save_samples rest fs
  end.

(** Lines 313-321: [while num < n_samples], a hundred images a round. *)
Fixpoint sampling (fuel n_samples num : nat) (fs : gmap string Node)
  : option (gmap string Node) :=
  if num <? n_samples then
    match fuel with
    | 0 => None
    | S fuel' =>
        fs' ← save_images (seq num 100) fs;
        sampling fuel' n_samples (num + 100) fs'
    end
  else Some fs.

(** [nlzl16_generative_model.py], lines 193-346. *)
Definition Nlzl16_files (fuel steps n_samples : nat) (fs : gmap string Node)
  : option (option Node * option Node) :=
  fs ← setup_directory sample_dir fs;
  fs ← setup_directory generated_images_dir fs;
  fs ← save_samples (seq 0 steps) fs;
  fs ← savefig "interpolation.png" fs;
  fs ← sampling fuel n_samples 0 fs;
  fs ← savefig "training_loss.png" fs;
  fs ← savefig "gen_img.png" fs;
  Some (fid_inputs fs).

(** The claim as the specification states it, for a script and the
    directory tree [fs] it starts in: each of the two directories the
    scorer reads was recreated by the run, so it holds nothing but what
    the run itself wrote there. *)
Definition only_written (written : gset string) (seen : option Node) : Prop :=
  match seen with
  | Some (Dir files) => files ⊆ written
  | _ => False
  end.

Definition recreated_before_fid
    (script : gmap string Node -> option (option Node * option Node))
    (written_real written_generated : gset string)
    (fs : gmap string Node) : Prop :=
  forall real generated,
    script fs = Some (real, generated) ->
    only_written written_real real /\
    only_written written_generated generated.

(** A tree left by an earlier run: both directories exist, each with a
    file of its own. *)
Definition stale_fs : gmap string Node :=
  {[ real_images_dir := Dir {[ "real_img_0.png" ]};
     generated_images_dir := Dir {[ "gen_img_10000.png" ]} ]}.

(** The names the scripts write figures under are not directories, and
    the directories they set up are not plain files. *)
Definition names_free (fs : gmap string Node) : Prop :=
  fs !! generated_images_dir <> Some File /\
  fs !! sample_dir <> Some File /\
  (forall files, fs !! "Interpolation.png" <> Some (Dir files)) /\
  (forall files, fs !! "interpolation.png" <> Some (Dir files)) /\
  (forall files, fs !! "training_loss.png" <> Some (Dir files)) /\
  (forall files, fs !! "gen_img.png" <> Some (Dir files)).

(** ** Small runs

    The end-to-end scenario of the specification: batch size 4, nz = 8,
    two training steps, on the small instance with its five images. *)
Definition small_step_run : Nlzl16.Params :=
  {| Nlzl16.batch_size := 4; Nlzl16.nc := 3; Nlzl16.step := 2; Nlzl16.nz := 8;
     Nlzl16.real_label := 9 # 10; Nlzl16.fake_label := 0; Nlzl16.dim := 32;
     Nlzl16.ngf := 64; Nlzl16.ndf := 64 |}.

Definition small_epoch_run : DCGAN.Params :=
  {| DCGAN.batch_size := 4; DCGAN.nc := 3; DCGAN.n_epochs := 1; DCGAN.nz := 8;
     DCGAN.real_label := 9 # 10; DCGAN.fake_label := 0; DCGAN.dim := 32;
     DCGAN.ngf := 64; DCGAN.ndf := 64 |}.

Definition no_step_run : Nlzl16.Params :=
  {| Nlzl16.batch_size := 4; Nlzl16.nc := 3; Nlzl16.step := 0; Nlzl16.nz := 8;
     Nlzl16.real_label := 9 # 10; Nlzl16.fake_label := 0; Nlzl16.dim := 32;
     Nlzl16.ngf := 64; Nlzl16.ndf := 64 |}.

Definition no_epoch_run : DCGAN.Params :=
  {| DCGAN.batch_size := 4; DCGAN.nc := 3; DCGAN.n_epochs := 0; DCGAN.nz := 8;
     DCGAN.real_label := 9 # 10; DCGAN.fake_label := 0; DCGAN.dim := 32;
     DCGAN.ngf := 64; DCGAN.ndf := 64 |}.

Definition toy_start : @State toy := (@initial_state toy 0 4 8).2.

(** ** Progress of a run

    [advanced snaps k s s']: from [s] to [s'] the run made [k] steps: the
    counter and the two loss lists grew by [k], the image list by [snaps],
    and the optimizer steps taken are [k] times netD's then netG's. *)
Definition advanced `{T : Torch} (snaps k : nat) (s s' : State) : Prop :=
  iters s' = iters s + k /\
  length (G_losses s') = length (G_losses s) + k /\
  length (D_losses s') = length (D_losses s) + k /\
  length (img_list s') = length (img_list s) + snaps /\
  filter is_step (log s') =
    filter is_step (log s) ++ concat (replicate k [EvStepD; EvStepG]).

(** How many of the indices [idx] of an epoch take the sample for
    visualisation. *)
Definition snapshots_in (p : DCGAN.Params) `{T : Torch} (epoch : nat) (idx : list nat) : nat :=
  sum_list (map (fun i => if DCGAN.snapshot_due p epoch i then 1 else 0) idx).

(** ** What a step starts from and what training leaves *)

(** The state with other contents in the two [.grad] slots. *)
Definition with_grads `{T : Torch} (gD : option GradD) (gG : option GradG)
    (s : State) : State :=
  with_disc {| thetaD := thetaD (disc s); bufD := bufD (disc s); gradD := gD;
               optD := optD (disc s) |}
    (with_gen {| thetaG := thetaG (gen s); bufG := bufG (gen s); gradG := gG;
                 optG := optG (gen s) |} s).

(** The state with other running statistics in netG and another list of
    sample grids. *)
Definition with_samples `{T : Torch} (b : BufG) (l : list Grid) (s : State) : State :=
  {| rng := rng s;
     gen := {| thetaG := thetaG (gen s); bufG := b; gradG := gradG (gen s);
               optG := optG (gen s) |};
     disc := disc s; G_losses := G_losses s; D_losses := D_losses s;
     img_list := l; iters := iters s; pending := pending s; log := log s |}.

(** In train mode the output of netG and the gradient through it are
    computed from the statistics of the batch, not from the running
    statistics the buffers hold. *)
Definition train_mode_ignores_buffers (T : Torch) : Prop :=
  (forall sc th b b' z, (G_forward sc th b z).1 = (G_forward sc th b' z).1) /\
  (forall sc tg bg bg' z td bd l,
      bce_grad_G sc tg bg z td bd l = bce_grad_G sc tg bg' z td bd l).

(** What training has produced: everything in the state but netG's
    running statistics and the sample grids. *)
Definition training_view `{T : Torch} (s : State) :=
  (rng s, thetaG (gen s), gradG (gen s), optG (gen s), disc s,
   G_losses s, D_losses s, iters s, pending s, log s).

(** [DCGAN.py]'s two loops stopped when iteration [i] of epoch [epoch] is
    about to begin: the epochs before [epoch] in full, then the iterations
    before [i]. *)
Definition DCGAN_train_until `{T : Torch} (p : DCGAN.Params) (oracle : nat -> Sched)
    (fixed_noise : Latent) (epoch i : nat) (s : State) : option State :=
  match
    for_each
      (fun e => for_each (DCGAN.loop_body p oracle fixed_noise e) (seq 0 DCGAN.steps_per_epoch))
      (seq 0 epoch) s
  with
  | None => None
  | Some s1 => for_each (DCGAN.loop_body p oracle fixed_noise epoch) (seq 0 i) s1
  end.

(** [k] calls of [next(train_iterator)] in a row: the batches they return,
    in order, and the state they leave. *)
Fixpoint DCGAN_next_batches `{T : Torch} (p : DCGAN.Params) (k : nat) (s : State)
  : option (list Image * State) :=
  match k with
  | 0 => Some ([], s)
  | S k =>
      match DCGAN.next_batch p s with
      | None => None
      | Some (x, s1) =>
          match DCGAN_next_batches p k s1 with
          | None => None
          | Some (xs, s2) => Some (x :: xs, s2)
          end
      end
  end.

(** ** The interpolate of the gradient penalty *)

Section Penalty.
Context {Fl : Float}.

(** [t.expand(sh)]: every size of [t] is kept or, where it is 1, raised
    to the size asked for. *)
Definition expand (sh : list nat) (t : Tensor) : Result Tensor :=
  if length sh <? length (shape t) then Raise BroadcastSize
  else
    let src := pad_left (length sh) (shape t) in
    if forallb (fun nm => (snd nm =? fst nm) || (snd nm =? 1)) (zip sh src)
    then Ok {| shape := sh; data := expand_data sh src (data t) |}
    else Raise BroadcastSize.

(** [gradient_penalty], lines 96-99: [eta], drawn uniformly with one value
    per image ([u] holds the values), is expanded to 3 x 32 x 32 and mixes
    the real and the fake batch. *)
Definition gradient_penalty_interpolated (u : list F) (real_images fake_images : Tensor)
  : Result Tensor :=
  match shape real_images with
  | [] => Raise IndexError
  | b :: _ =>
      do eta <~ expand [b; 3; 32; 32] {| shape := [b; 1; 1; 1]; data := u |};
      do x <~ binop f_mul eta real_images;
      do y <~ binop f_mul (one_minus eta) fake_images;
      binop f_add x y
  end.

End Penalty.

(** ** Floats over the rationals

    An instance of [Float] on which the tensor operations can be
    evaluated; [torch.linspace(0, 1, steps)] has the points
    [i / (steps - 1)]. *)
Definition Float_Q : Float :=
  {| F := Q; f_zero := 0%Q; f_one := 1%Q;
     f_add := Qplus; f_sub := Qminus; f_mul := Qmult;
     f_linspace := fun i steps => (Z.of_nat i # Pos.of_nat (steps - 1))%Q |}.

(** A batch size that is not a perfect square. *)
Definition small_odd_run : Nlzl16.Params :=
  {| Nlzl16.batch_size := 8; Nlzl16.nc := 3; Nlzl16.step := 2; Nlzl16.nz := 8;
     Nlzl16.real_label := 9 # 10; Nlzl16.fake_label := 0; Nlzl16.dim := 32;
     Nlzl16.ngf := 64; Nlzl16.ndf := 64 |}.

(** * Properties of the training step *)

Section TrainerFacts.
Context {T : Torch}.

Lemma DCGAN_step_log p sc data s :
  log (DCGAN.train_step p sc data s) =
  log s ++ phase_D_events (DCGAN.real_label p) (DCGAN.fake_label p)
        ++ phase_G_events (DCGAN.real_label p) ++ [EvAppend].
Proof.
  unfold DCGAN.train_step, D_real_pass, D_fake_pass, G_pass. simpl.
  rewrite <- !app_assoc. reflexivity.
Qed.

Lemma Nlzl16_step_log p sc data s :
  log (Nlzl16.train_step p sc data s).2 =
  log s ++ phase_D_events (Nlzl16.real_label p) (Nlzl16.fake_label p)
        ++ phase_G_events (Nlzl16.real_label p).
Proof.
  unfold Nlzl16.train_step, D_real_pass, D_fake_pass, G_pass. simpl.
  rewrite <- !app_assoc. reflexivity.
Qed.

End TrainerFacts.

(** * Properties of the training loops *)

Section LoopFacts.
Context {T : Torch}.

Lemma advanced_refl s : advanced 0 0 s s.
Proof.
  unfold advanced. rewrite !Nat.add_0_r. simpl. rewrite app_nil_r. auto.
Qed.

Lemma advanced_trans a b k j s1 s2 s3 :
  advanced a k s1 s2 -> advanced b j s2 s3 -> advanced (a + b) (k + j) s1 s3.
Proof.
  intros (H1 & H2 & H3 & H4 & H5) (K1 & K2 & K3 & K4 & K5).
  unfold advanced. rewrite K1, K2, K3, K4, K5, H1, H2, H3, H4, H5.
  rewrite replicate_add, concat_app, app_assoc. repeat split; lia.
Qed.

Lemma next_batch_Some p s :
  0 < len_loader (DCGAN.batch_size p) ->
  exists data s', DCGAN.next_batch p s = Some (data, s') /\
    gen s' = gen s /\ disc s' = disc s /\ G_losses s' = G_losses s /\
    D_losses s' = D_losses s /\ img_list s' = img_list s /\ iters s' = iters s /\
    log s' = log s ++ [EvNext].
Proof.
  intros Hlen. unfold DCGAN.next_batch.
  destruct (pending s) as [|x rest] eqn:E.
  - unfold start_pass. simpl.
    destruct (len_loader (DCGAN.batch_size p)) as [|n] eqn:En; [lia|].
    simpl. eexists _, _. split; [reflexivity|]. simpl. auto 10.
  - eexists _, _. split; [reflexivity|]. simpl. auto 10.
Qed.

Lemma filter_step_events rl fl (l : list Event) :
  filter is_step (l ++ phase_D_events rl fl ++ phase_G_events rl) =
  filter is_step l ++ [EvStepD; EvStepG].
Proof. rewrite filter_app. reflexivity. Qed.

Lemma DCGAN_step_fields p sc data s :
  let s' := DCGAN.train_step p sc data s in
  iters s' = iters s /\
  length (G_losses s') = length (G_losses s) + 1 /\
  length (D_losses s') = length (D_losses s) + 1 /\
  img_list s' = img_list s /\
  filter is_step (log s') = filter is_step (log s) ++ [EvStepD; EvStepG].
Proof.
  cbv zeta. rewrite DCGAN_step_log.
  rewrite !app_assoc, filter_app, <- app_assoc, filter_step_events.
  repeat split; try (simpl; rewrite ?length_app; simpl; lia).
  simpl. rewrite app_nil_r. reflexivity.
Qed.

Lemma DCGAN_tail_advanced (due : bool) sc fn s s2 :
  iters s2 = iters s ->
  length (G_losses s2) = length (G_losses s) + 1 ->
  length (D_losses s2) = length (D_losses s) + 1 ->
  img_list s2 = img_list s ->
  filter is_step (log s2) = filter is_step (log s) ++ [EvStepD; EvStepG] ->
  advanced (if due then 1 else 0) 1 s
    (incr_iters
       (if due then
          let '(grid, s3) := snapshot sc fn s2 in
          {| rng := rng s3; gen := gen s3; disc := disc s3; G_losses := G_losses s3;
             D_losses := D_losses s3; img_list := img_list s3 ++ [grid];
             iters := iters s3; pending := pending s3; log := log s3 |}
        else s2)).
Proof.
  intros A1 A2 A3 A4 A5. unfold advanced.
  destruct due;
    cbn [iters G_losses D_losses img_list log incr_iters snapshot fst snd emit with_gen];
    rewrite ?length_app, ?filter_app, A1, A2, A3, A4, A5;
    cbn [length concat replicate app]; rewrite ?app_nil_r;
    change (filter is_step [EvSnapshot]) with (@nil Event); rewrite ?app_nil_r;
    repeat split; lia.
Qed.

Lemma DCGAN_body_advanced p oracle fn epoch i s :
  0 < len_loader (DCGAN.batch_size p) ->
  exists s', DCGAN.loop_body p oracle fn epoch i s = Some s' /\
    advanced (if DCGAN.snapshot_due p epoch i then 1 else 0) 1 s s'.
Proof.
  intros Hlen. unfold DCGAN.loop_body.
  destruct (next_batch_Some p s Hlen) as (data & s1 & -> & Hg & Hd & HG & HD & HI & Hi & Hl).
  eexists. split; [reflexivity|].
  destruct (DCGAN_step_fields p (oracle (iters s1)) data s1) as (A1 & A2 & A3 & A4 & A5).
  apply DCGAN_tail_advanced; try congruence.
  rewrite A5, Hl, filter_app. change (filter is_step [EvNext]) with (@nil Event).
  rewrite app_nil_r. reflexivity.
Qed.

Lemma DCGAN_inner_advanced p oracle fn epoch idx :
  0 < len_loader (DCGAN.batch_size p) ->
  forall s, exists s',
    for_each (DCGAN.loop_body p oracle fn epoch) idx s = Some s' /\
    advanced (snapshots_in p epoch idx) (length idx) s s'.
Proof.
  intros Hlen. induction idx as [|i idx IH]; intros s.
  - exists s. split; [reflexivity|]. apply advanced_refl.
  - destruct (DCGAN_body_advanced p oracle fn epoch i s Hlen) as (s1 & E1 & A1).
    destruct (IH s1) as (s2 & E2 & A2).
    exists s2. cbn [for_each]. rewrite E1. split; [exact E2|].
    change (snapshots_in p epoch (i :: idx))
      with ((if DCGAN.snapshot_due p epoch i then 1 else 0) + snapshots_in p epoch idx).
    exact (advanced_trans _ _ 1 (length idx) _ _ _ A1 A2).
Qed.

Lemma DCGAN_outer_advanced p oracle fn epochs :
  0 < len_loader (DCGAN.batch_size p) ->
  forall s, exists s',
    for_each
      (fun epoch =>
         for_each (DCGAN.loop_body p oracle fn epoch) (seq 0 DCGAN.steps_per_epoch))
      epochs s = Some s' /\
    advanced
      (sum_list (map (fun e => snapshots_in p e (seq 0 DCGAN.steps_per_epoch)) epochs))
      (length epochs * DCGAN.steps_per_epoch) s s'.
Proof.
  intros Hlen. induction epochs as [|e epochs IH]; intros s.
  - exists s. split; [reflexivity|]. apply advanced_refl.
  - destruct (DCGAN_inner_advanced p oracle fn e (seq 0 DCGAN.steps_per_epoch) Hlen s)
      as (s1 & E1 & A1).
    destruct (IH s1) as (s2 & E2 & A2).
    exists s2. cbn [for_each]. rewrite E1. split; [exact E2|].
    rewrite length_seq in A1.
    exact (advanced_trans _ _ _ _ _ _ _ A1 A2).
Qed.

(** The indicator of one index, summed over a range. *)
Lemma sum_indicator (f : nat -> bool) (k a m : nat) :
  (forall i, f i = true <-> i = k) ->
  sum_list (map (fun i => if f i then 1 else 0) (seq a m)) =
  if decide (a <= k < a + m) then 1 else 0.
Proof.
  intros Hf. revert a. induction m as [|m IH]; intros a.
  - simpl. case_decide; lia.
  - simpl. rewrite IH.
    destruct (f a) eqn:E.
    + apply Hf in E. subst. repeat case_decide; lia.
    + assert (a <> k) by (intros ->; rewrite (proj2 (Hf k) eq_refl) in E; discriminate).
      repeat case_decide; lia.
Qed.

Lemma sum_zero {A} (w : A -> nat) (l : list A) :
  (forall x, w x = 0) -> sum_list (map w l) = 0.
Proof. intros H. induction l; simpl; rewrite ?H; auto. Qed.

Lemma snapshots_in_epoch p e :
  1 <= len_loader (DCGAN.batch_size p) ->
  snapshots_in p e (seq 0 DCGAN.steps_per_epoch) =
  if (e + 1 =? DCGAN.n_epochs p) && (len_loader (DCGAN.batch_size p) <=? DCGAN.steps_per_epoch)
  then 1 else 0.
Proof.
  intros Hlen. unfold snapshots_in, DCGAN.snapshot_due.
  destruct (e + 1 =? DCGAN.n_epochs p).
  - cbn [andb].
    rewrite (sum_indicator _ (len_loader (DCGAN.batch_size p) - 1)).
    + destruct (Nat.leb_spec (len_loader (DCGAN.batch_size p)) DCGAN.steps_per_epoch);
        case_decide; lia.
    + intros i. rewrite Z.eqb_eq. lia.
  - apply sum_zero. reflexivity.
Qed.

Lemma snapshots_total p :
  1 <= len_loader (DCGAN.batch_size p) ->
  sum_list (map (fun e => snapshots_in p e (seq 0 DCGAN.steps_per_epoch))
              (seq 0 (DCGAN.n_epochs p))) =
  if (1 <=? DCGAN.n_epochs p) && (len_loader (DCGAN.batch_size p) <=? DCGAN.steps_per_epoch)
  then 1 else 0.
Proof.
  intros Hlen.
  rewrite (map_ext _ _ (fun e => snapshots_in_epoch p e Hlen)).
  destruct (len_loader (DCGAN.batch_size p) <=? DCGAN.steps_per_epoch).
  - rewrite andb_true_r.
    destruct (Nat.leb_spec 1 (DCGAN.n_epochs p)) as [Hn|Hn].
    + rewrite (map_ext _ (fun e => if e + 1 =? DCGAN.n_epochs p then 1 else 0)).
      2: { intros e. rewrite andb_true_r. reflexivity. }
      rewrite (sum_indicator _ (DCGAN.n_epochs p - 1)).
      * case_decide; lia.
      * intros i. rewrite Nat.eqb_eq. lia.
    + replace (DCGAN.n_epochs p) with 0 by lia. reflexivity.
  - rewrite andb_false_r. apply sum_zero. intros e. rewrite andb_false_r. reflexivity.
Qed.

Lemma DCGAN_train_advanced p oracle fn s :
  0 < len_loader (DCGAN.batch_size p) ->
  exists s', DCGAN.train p oracle fn s = Some s' /\
    advanced
      (sum_list (map (fun e => snapshots_in p e (seq 0 DCGAN.steps_per_epoch))
                   (seq 0 (DCGAN.n_epochs p))))
      (DCGAN.n_epochs p * DCGAN.steps_per_epoch) s s'.
Proof.
  intros Hlen. unfold DCGAN.train.
  destruct (DCGAN_outer_advanced p oracle fn (seq 0 (DCGAN.n_epochs p)) Hlen s)
    as (s' & E & A).
  rewrite length_seq in A. eauto.
Qed.

(** *** The loop of [nlzl16_generative_model.py] *)

Lemma Nlzl16_step_fields p sc data s :
  let r := Nlzl16.train_step p sc data s in
  iters r.2 = iters s /\
  G_losses r.2 = G_losses s /\
  D_losses r.2 = D_losses s /\
  img_list r.2 = img_list s /\
  filter is_step (log r.2) = filter is_step (log s) ++ [EvStepD; EvStepG].
Proof.
  cbv zeta. rewrite Nlzl16_step_log.
  rewrite filter_step_events. repeat split.
Qed.

Lemma Nlzl16_tail_advanced (due : bool) sc fn (errG errD : Scalar) s s2 :
  iters s2 = iters s ->
  G_losses s2 = G_losses s ->
  D_losses s2 = D_losses s ->
  img_list s2 = img_list s ->
  filter is_step (log s2) = filter is_step (log s) ++ [EvStepD; EvStepG] ->
  advanced 0 1 s
    (incr_iters (append_losses errG errD (if due then (snapshot sc fn s2).2 else s2))).
Proof.
  intros A1 A2 A3 A4 A5. unfold advanced.
  destruct due;
    cbn [iters G_losses D_losses img_list log incr_iters append_losses snapshot
         fst snd emit with_gen];
    rewrite ?length_app, ?filter_app, A1, A2, A3, A4, A5;
    cbn [length concat replicate app]; rewrite ?app_nil_r;
    change (filter is_step [EvSnapshot]) with (@nil Event);
    change (filter is_step [EvAppend]) with (@nil Event); rewrite ?app_nil_r;
    repeat split; lia.
Qed.

Lemma Nlzl16_body_advanced p oracle fn data s :
  advanced 0 1 s (Nlzl16.loop_body p oracle fn data (emit EvNext s)).
Proof.
  unfold Nlzl16.loop_body.
  destruct (Nlzl16_step_fields p (oracle (iters (emit EvNext s))) data (emit EvNext s))
    as (A1 & A2 & A3 & A4 & A5).
  destruct (Nlzl16.train_step p (oracle (iters (emit EvNext s))) data (emit EvNext s))
    as [[errG errD] s2].
  cbn [snd] in A1, A2, A3, A4, A5.
  apply Nlzl16_tail_advanced; try assumption.
  rewrite A5. cbn [log emit]. rewrite filter_app.
  change (filter is_step [EvNext]) with (@nil Event). rewrite app_nil_r. reflexivity.
Qed.

Lemma Nlzl16_for_batches_advanced p oracle fn batches :
  forall s, iters s <= Nlzl16.step p ->
    advanced 0 (Nat.min (length batches) (Nlzl16.step p - iters s)) s
      (Nlzl16.for_batches p oracle fn batches s).
Proof.
  induction batches as [|data rest IH]; intros s Hs.
  - apply advanced_refl.
  - cbn [Nlzl16.for_batches length].
    destruct (Nlzl16.step p <=? iters s) eqn:E.
    + apply Nat.leb_le in E.
      replace (Nat.min (S (length rest)) (Nlzl16.step p - iters s)) with 0 by lia.
      apply advanced_refl.
    + apply Nat.leb_gt in E.
      pose proof (Nlzl16_body_advanced p oracle fn data s) as A1.
      assert (Hi : iters (Nlzl16.loop_body p oracle fn data (emit EvNext s)) = iters s + 1)
        by apply A1.
      specialize (IH (Nlzl16.loop_body p oracle fn data (emit EvNext s))).
      rewrite Hi in IH.
      replace (Nat.min (S (length rest)) (Nlzl16.step p - iters s))
        with (1 + Nat.min (length rest) (Nlzl16.step p - (iters s + 1))) by lia.
      exact (advanced_trans 0 0 _ _ _ _ _ A1 (IH ltac:(lia))).
Qed.

Lemma Nlzl16_train_advanced p oracle fn :
  0 < len_loader (Nlzl16.batch_size p) ->
  forall fuel s,
    iters s <= Nlzl16.step p ->
    Nlzl16.step p - iters s <= fuel ->
    exists s', Nlzl16.train fuel p oracle fn s = Some s' /\
      advanced 0 (Nlzl16.step p - iters s) s s'.
Proof.
  intros Hlen. induction fuel as [|fuel IH]; intros s Hs Hf.
  - exists s. cbn [Nlzl16.train].
    replace (iters s <? Nlzl16.step p) with false by (symmetry; apply Nat.ltb_ge; lia).
    split; [reflexivity|].
    replace (Nlzl16.step p - iters s) with 0 by lia. apply advanced_refl.
  - cbn [Nlzl16.train].
    destruct (iters s <? Nlzl16.step p) eqn:E.
    + apply Nat.ltb_lt in E.
      unfold start_pass. cbn [fst snd].
      set (s0 := with_rng _ s).
      set (batches := map _ _).
      assert (Hb : 0 < length batches)
        by (unfold batches; rewrite length_map, length_seq; exact Hlen).
      assert (H0 : advanced 0 0 s s0) by (unfold advanced, s0; simpl;
        rewrite ?Nat.add_0_r, app_nil_r; auto).
      assert (Hi0 : iters s0 = iters s) by reflexivity.
      pose proof (Nlzl16_for_batches_advanced p oracle fn batches s0 ltac:(lia)) as A1.
      set (s1 := Nlzl16.for_batches p oracle fn batches s0) in *.
      assert (Hi1 : iters s1 = iters s0 + Nat.min (length batches) (Nlzl16.step p - iters s0))
        by apply A1.
      destruct (IH s1 ltac:(lia) ltac:(lia)) as (s' & E' & A2).
      exists s'. split; [exact E'|].
      pose proof (advanced_trans _ _ _ _ _ _ _ H0 (advanced_trans _ _ _ _ _ _ _ A1 A2)) as A.
      replace (Nlzl16.step p - iters s)
        with (0 + (Nat.min (length batches) (Nlzl16.step p - iters s0)
                   + (Nlzl16.step p - iters s1))) by lia.
      exact A.
    + apply Nat.ltb_ge in E. exists s. split; [reflexivity|].
      replace (Nlzl16.step p - iters s) with 0 by lia. apply advanced_refl.
Qed.

(** On an empty loader the [while] loop never ends once a step is due. *)
Lemma Nlzl16_train_empty p oracle fn fuel s :
  len_loader (Nlzl16.batch_size p) = 0 ->
  iters s < Nlzl16.step p ->
  Nlzl16.train fuel p oracle fn s = None.
Proof.
  intros Hlen. revert s. induction fuel as [|fuel IH]; intros s Hs;
    cbn [Nlzl16.train]; rewrite (proj2 (Nat.ltb_lt _ _) Hs); [reflexivity|].
  unfold start_pass. rewrite Hlen. cbn [seq map fst snd Nlzl16.for_batches].
  apply IH. exact Hs.
Qed.

(** On an empty loader [next(train_iterator)] never returns. *)
Lemma DCGAN_next_batch_empty p s :
  len_loader (DCGAN.batch_size p) = 0 -> pending s = [] ->
  DCGAN.next_batch p s = None.
Proof.
  intros Hlen Hp. unfold DCGAN.next_batch, start_pass. rewrite Hp, Hlen. reflexivity.
Qed.

End LoopFacts.

(** * The training step and the training loop against the specification *)

Section StepClaims.
Context {T : Torch}.

(** Had Phase D forwarded [fake] itself, its backward pass would have
    written netG's gradients: the detachment is what keeps them out. *)
Lemma backward_attached_writes sc (l : Label) (n : GenNode) (x : Image) s :
  let fake := {| img_data := x; img_src := Fake; img_grad_fn := Some n |} in
  let r := forward_D sc fake s in
  gradG (gen (backward sc (criterion sc r.1 l) r.2)) =
  accumulate grad_add_G (gradG (gen s))
    (bce_grad_G sc (gn_theta n) (gn_buf n) (gn_noise n)
       (thetaD (disc s)) (bufD (disc s)) l).
Proof. reflexivity. Qed.

Lemma D_fake_pass_gen sc fl label fake s :
  gen (D_fake_pass sc fl label fake s).2 = gen s.
Proof. reflexivity. Qed.

Lemma G_pass_gradG sc rl label b nz s0 s :
  gradG (gen (G_pass sc rl label (generate sc b nz s0).1 s).2) =
  Some (bce_grad_G sc (thetaG (gen s0)) (bufG (gen s0)) (randn (rng s0) b nz).1
          (thetaD (disc s)) (bufD (disc s)) (fill_ label rl)).
Proof. reflexivity. Qed.

Lemma G_phase_thetaD sc rl label fake s :
  thetaD (disc (step_G sc (G_pass sc rl label fake s).2)) = thetaD (disc s).
Proof.
  destruct fake as [x src [n|]]; reflexivity.
Qed.

(** C1. Detachment invariant, for every state a step can start in and
    every batch. Phase D's pass on the fake batch feeds netD with
    [fake.detach()] and leaves netG's gradients (indeed all of netG's
    state) as they were; Phase G's pass on the batch that [generate]
    returned fills netG's gradients with the gradient of errG; after
    [optimizerG.step()] netD's parameters are those Phase G started with.
    In both scripts the backward passes of a step are, in order: real
    batch (not into netG), detached fake batch (not into netG), attached
    fake batch (into netG). *)
Theorem detachment_invariant (p : DCGAN.Params) (q : Nlzl16.Params)
    (sc : Sched) (rl fl : Q) (b nz : nat) (label : Label) (data : Image)
    (s0 s : State) :
  let fake := (generate sc b nz s0).1 in
  requires_grad fake = true /\
  requires_grad (detach fake) = false /\
  gen (D_fake_pass sc fl label fake s).2 = gen s /\
  gradG (gen (G_pass sc rl label fake s).2) =
    Some (bce_grad_G sc (thetaG (gen s0)) (bufG (gen s0)) (randn (rng s0) b nz).1
            (thetaD (disc s)) (bufD (disc s)) (fill_ label rl)) /\
  thetaD (disc (step_G sc (G_pass sc rl label fake s).2)) = thetaD (disc s) /\
  filter is_backward (log (DCGAN.train_step p sc data s)) =
    filter is_backward (log s) ++
    [ EvBackward (DCGAN.real_label p) false; EvBackward (DCGAN.fake_label p) false;
      EvBackward (DCGAN.real_label p) true ] /\
  filter is_backward (log (Nlzl16.train_step q sc data s).2) =
    filter is_backward (log s) ++
    [ EvBackward (Nlzl16.real_label q) false; EvBackward (Nlzl16.fake_label q) false;
      EvBackward (Nlzl16.real_label q) true ].
Proof.
  cbv zeta. split; [reflexivity|]. split; [reflexivity|].
  split; [apply D_fake_pass_gen|]. split; [apply G_pass_gradG|].
  split; [apply G_phase_thetaD|].
  rewrite DCGAN_step_log, Nlzl16_step_log, !filter_app. split; reflexivity.
Qed.

Lemma DCGAN_step_refines p sc data s :
  let sp := step_spec sc (DCGAN.real_label p) (DCGAN.fake_label p) (DCGAN.nz p) data s in
  let s' := DCGAN.train_step p sc data s in
  thetaD (disc s') = sp_thetaD sp /\
  gradD (disc s') =
    Some (grad_add_D (grad_add_D (sp_gradD_real sp) (sp_gradD_fake sp))
            (bce_grad_D sc (sp_thetaD sp)
               (D_forward sc (thetaD (disc s))
                  (D_forward sc (thetaD (disc s)) (bufD (disc s)) data).2 (sp_fake sp)).2
               (sp_fake sp) (full (size0 data) (DCGAN.real_label p)))) /\
  D_losses s' = D_losses s ++ [sp_errD sp] /\
  G_losses s' = G_losses s ++ [sp_errG sp] /\
  gradG (gen s') = Some (sp_gradG sp) /\
  thetaG (gen s') = sp_thetaG sp.
Proof. repeat split. Qed.

Lemma Nlzl16_step_refines q sc data s :
  let sp := step_spec sc (Nlzl16.real_label q) (Nlzl16.fake_label q) (Nlzl16.nz q) data s in
  let r := Nlzl16.train_step q sc data s in
  thetaD (disc r.2) = sp_thetaD sp /\
  r.1.2 = scalar_add (sp_errD_fake sp) (sp_errD_real sp) /\
  r.1.1 = sp_errG sp /\
  gradG (gen r.2) = Some (sp_gradG sp) /\
  thetaG (gen r.2) = sp_thetaG sp.
Proof. repeat split. Qed.



(** C2. Phase D of every step, in both scripts. The calls come in the
    order: zero netD's gradients; forward the real batch; backward its
    loss against real_label; generate the fake batch; forward the detached
    fake batch; backward its loss against fake_label; one step of netD's
    optimizer. The parameters that step leaves are one Adam update on the
    sum of the two gradients, and the entry appended to D_losses is
    errD_real + errD_fake ([nlzl16_generative_model.py] writes the two
    operands in the other order; the addition commutes). The configured
    labels are 0.9 and 0. *)
Theorem phase_D_protocol (p : DCGAN.Params) (q : Nlzl16.Params)
    (oracle : nat -> Sched) (fixed_noise : Latent) (data : Image) (s : State) :
  (forall a b : Scalar, scalar_add a b = scalar_add b a) ->
  let sc := oracle (iters s) in
  let sp := step_spec sc (DCGAN.real_label p) (DCGAN.fake_label p) (DCGAN.nz p) data s in
  let sq := step_spec sc (Nlzl16.real_label q) (Nlzl16.fake_label q) (Nlzl16.nz q) data s in
  (log (DCGAN.train_step p sc data s) =
     log s ++ phase_D_events (DCGAN.real_label p) (DCGAN.fake_label p)
           ++ phase_G_events (DCGAN.real_label p) ++ [EvAppend] /\
   thetaD (disc (DCGAN.train_step p sc data s)) = sp_thetaD sp /\
   D_losses (DCGAN.train_step p sc data s) = D_losses s ++ [sp_errD sp]) /\
  (log (Nlzl16.train_step q sc data s).2 =
     log s ++ phase_D_events (Nlzl16.real_label q) (Nlzl16.fake_label q)
           ++ phase_G_events (Nlzl16.real_label q) /\
   thetaD (disc (Nlzl16.train_step q sc data s).2) = sp_thetaD sq /\
   D_losses (Nlzl16.loop_body q oracle fixed_noise data s) =
     D_losses s ++ [sp_errD sq]) /\
  (sp_thetaD sp =
     (adam_D sc (optD (disc s)) (thetaD (disc s))
        (grad_add_D (sp_gradD_real sp) (sp_gradD_fake sp))).1 /\
   sp_errD sp = scalar_add (sp_errD_real sp) (sp_errD_fake sp)) /\
  (DCGAN.real_label DCGAN.params = (9 # 10)%Q /\ DCGAN.fake_label DCGAN.params = 0%Q /\
   Nlzl16.real_label Nlzl16.params = (9 # 10)%Q /\
   Nlzl16.fake_label Nlzl16.params = 0%Q).
Proof.
  intros Hcomm. cbv zeta.
  split; [|split; [|split]].
  - split; [apply DCGAN_step_log|]. split; reflexivity.
  - split; [apply Nlzl16_step_log|]. split; [reflexivity|].
    unfold Nlzl16.loop_body.
    destruct (Nlzl16_step_refines q (oracle (iters s)) data s) as (_ & E & _).
    pose proof (Nlzl16_step_fields q (oracle (iters s)) data s) as (_ & _ & HD & _).
    destruct (Nlzl16.train_step q (oracle (iters s)) data s) as [[errG errD] s2].
    cbn [fst snd] in E, HD. subst errD.
    destruct (iters s mod 5000 =? 0); cbn [D_losses incr_iters append_losses snapshot snd fst emit with_gen].
    all: rewrite HD, Hcomm; reflexivity.
  - split; reflexivity.
  - repeat split.
Qed.


Lemma DCGAN_run_unfold p oracle :
  DCGAN.run p oracle =
  DCGAN.train p oracle (initial_state DCGAN.SEED (DCGAN.batch_size p) (DCGAN.nz p)).1
    (initial_state DCGAN.SEED (DCGAN.batch_size p) (DCGAN.nz p)).2.
Proof. reflexivity. Qed.

Lemma Nlzl16_run_unfold fuel q oracle :
  Nlzl16.run fuel q oracle =
  Nlzl16.train fuel q oracle
    (initial_state Nlzl16.SEED (Nlzl16.batch_size q) (Nlzl16.nz q)).1
    (initial_state Nlzl16.SEED (Nlzl16.batch_size q) (Nlzl16.nz q)).2.
Proof. reflexivity. Qed.

Lemma DCGAN_run_advanced p oracle :
  0 < len_loader (DCGAN.batch_size p) ->
  exists s, DCGAN.run p oracle = Some s /\
    iters s = DCGAN.n_epochs p * 1000 /\
    length (G_losses s) = DCGAN.n_epochs p * 1000 /\
    length (D_losses s) = DCGAN.n_epochs p * 1000 /\
    length (img_list s) =
      (if (1 <=? DCGAN.n_epochs p) && (len_loader (DCGAN.batch_size p) <=? 1000)
       then 1 else 0) /\
    filter is_step (log s) = concat (replicate (DCGAN.n_epochs p * 1000) [EvStepD; EvStepG]).
Proof.
  intros Hlen. rewrite DCGAN_run_unfold.
  destruct (DCGAN_train_advanced p oracle
              (initial_state DCGAN.SEED (DCGAN.batch_size p) (DCGAN.nz p)).1
              (initial_state DCGAN.SEED (DCGAN.batch_size p) (DCGAN.nz p)).2 Hlen)
    as (s & E & A1 & A2 & A3 & A4 & A5).
  exists s. split; [exact E|].
  rewrite snapshots_total in A4 by lia.
  cbn [initial_state snd iters G_losses D_losses img_list log length] in A1, A2, A3, A4, A5.
  change DCGAN.steps_per_epoch with 1000 in *.
  repeat split; assumption.
Qed.

Lemma Nlzl16_run_advanced fuel q oracle :
  0 < len_loader (Nlzl16.batch_size q) ->
  Nlzl16.step q <= fuel ->
  exists s, Nlzl16.run fuel q oracle = Some s /\
    iters s = Nlzl16.step q /\
    length (G_losses s) = Nlzl16.step q /\
    length (D_losses s) = Nlzl16.step q /\
    filter is_step (log s) = concat (replicate (Nlzl16.step q) [EvStepD; EvStepG]).
Proof.
  intros Hlen Hfuel. rewrite Nlzl16_run_unfold.
  destruct (Nlzl16_train_advanced q oracle
              (initial_state Nlzl16.SEED (Nlzl16.batch_size q) (Nlzl16.nz q)).1 Hlen fuel
              (initial_state Nlzl16.SEED (Nlzl16.batch_size q) (Nlzl16.nz q)).2)
    as (s & E & A1 & A2 & A3 & A4 & A5).
  - cbn [initial_state snd iters]. lia.
  - cbn [initial_state snd iters]. lia.
  - exists s. split; [exact E|].
    cbn [initial_state snd iters G_losses D_losses img_list log length] in A1, A2, A3, A4, A5.
    rewrite Nat.sub_0_r in *.
    repeat split; assumption.
Qed.

(** C3. Within every step of both scripts the calls of Phase D, which end
    with netD's optimizer step, all come before the calls of Phase G; the
    batch is generated once, in Phase D, and Phase G's loss and gradient
    are those of that same batch seen by the netD that Phase D has just
    updated. Over a whole run the optimizer steps alternate: netD, netG,
    netD, netG, and so on, once each per step of the budget. *)
Theorem phase_order (p : DCGAN.Params) (q : Nlzl16.Params)
    (oracle : nat -> Sched) (fuel : nat) (sc : Sched) (data : Image) (s : State) :
  0 < len_loader (DCGAN.batch_size p) ->
  0 < len_loader (Nlzl16.batch_size q) ->
  Nlzl16.step q <= fuel ->
  let sp := step_spec sc (DCGAN.real_label p) (DCGAN.fake_label p) (DCGAN.nz p) data s in
  let sq := step_spec sc (Nlzl16.real_label q) (Nlzl16.fake_label q) (Nlzl16.nz q) data s in
  (log (DCGAN.train_step p sc data s) =
     log s ++ phase_D_events (DCGAN.real_label p) (DCGAN.fake_label p)
           ++ phase_G_events (DCGAN.real_label p) ++ [EvAppend] /\
   G_losses (DCGAN.train_step p sc data s) = G_losses s ++ [sp_errG sp] /\
   gradG (gen (DCGAN.train_step p sc data s)) = Some (sp_gradG sp) /\
   thetaG (gen (DCGAN.train_step p sc data s)) = sp_thetaG sp /\
   thetaD (disc (DCGAN.train_step p sc data s)) = sp_thetaD sp) /\
  (log (Nlzl16.train_step q sc data s).2 =
     log s ++ phase_D_events (Nlzl16.real_label q) (Nlzl16.fake_label q)
           ++ phase_G_events (Nlzl16.real_label q) /\
   (Nlzl16.train_step q sc data s).1.1 = sp_errG sq /\
   gradG (gen (Nlzl16.train_step q sc data s).2) = Some (sp_gradG sq) /\
   thetaG (gen (Nlzl16.train_step q sc data s).2) = sp_thetaG sq /\
   thetaD (disc (Nlzl16.train_step q sc data s).2) = sp_thetaD sq) /\
  (let b1 := (D_forward sc (thetaD (disc s)) (bufD (disc s)) data).2 in
   let b2 := (D_forward sc (thetaD (disc s)) b1 (sp_fake sp)).2 in
   sp_errD_fake sp =
     bce sc (D_forward sc (thetaD (disc s)) b1 (sp_fake sp)).1
       (full (size0 data) (DCGAN.fake_label p)) /\
   sp_errG sp =
     bce sc (D_forward sc (sp_thetaD sp) b2 (sp_fake sp)).1
       (full (size0 data) (DCGAN.real_label p))) /\
  (exists s', DCGAN.run p oracle = Some s' /\
     filter is_step (log s') =
       concat (replicate (DCGAN.n_epochs p * 1000) [EvStepD; EvStepG])) /\
  (exists s', Nlzl16.run fuel q oracle = Some s' /\
     filter is_step (log s') =
       concat (replicate (Nlzl16.step q) [EvStepD; EvStepG])).
Proof.
  intros Hp Hq Hfuel. cbv zeta.
  split; [|split; [|split; [|split]]].
  - split; [apply DCGAN_step_log|]. repeat split.
  - split; [apply Nlzl16_step_log|]. repeat split.
  - split; reflexivity.
  - destruct (DCGAN_run_advanced p oracle Hp) as (s' & E & _ & _ & _ & _ & A).
    eauto.
  - destruct (Nlzl16_run_advanced fuel q oracle Hq Hfuel) as (s' & E & _ & _ & _ & A).
    eauto.
Qed.

(** C6. With a budget of zero steps ([n_epochs] = 0, [step] = 0) the
    training loop returns the state it was given: after it the parameters
    of netG and netD are the ones the initialisation produced, and so is
    everything else. *)
Theorem zero_budget (p : DCGAN.Params) (q : Nlzl16.Params)
    (oracle : nat -> Sched) (fuel : nat) :
  DCGAN.n_epochs p = 0 ->
  Nlzl16.step q = 0 ->
  (exists s, DCGAN.run p oracle = Some s /\
     s = (initial_state DCGAN.SEED (DCGAN.batch_size p) (DCGAN.nz p)).2 /\
     thetaG (gen s) = (init_G (manual_seed DCGAN.SEED)).1.1 /\
     thetaD (disc s) = (init_D (init_G (manual_seed DCGAN.SEED)).2).1.1) /\
  (exists s, Nlzl16.run fuel q oracle = Some s /\
     s = (initial_state Nlzl16.SEED (Nlzl16.batch_size q) (Nlzl16.nz q)).2 /\
     thetaG (gen s) = (init_G (manual_seed Nlzl16.SEED)).1.1 /\
     thetaD (disc s) = (init_D (init_G (manual_seed Nlzl16.SEED)).2).1.1).
Proof.
  intros Hp Hq. split.
  - eexists. rewrite DCGAN_run_unfold. unfold DCGAN.train. rewrite Hp.
    cbn [seq for_each]. split; [reflexivity|]. repeat split.
  - eexists. rewrite Nlzl16_run_unfold.
    destruct fuel; cbn [Nlzl16.train]; rewrite Hq;
      (split; [reflexivity|]); repeat split.
Qed.

(** C8. The training loop ends after exactly its budget of steps,
    whatever the losses are: [n_epochs] times 1000 steps in [DCGAN.py],
    [step] steps in [nlzl16_generative_model.py], given a loader that is
    not empty (and, for the model of the [while] loop, fuel for [step]
    passes). [iters] then equals the budget and G_losses and D_losses
    have that many entries each. *)
Theorem training_budget (p : DCGAN.Params) (q : Nlzl16.Params)
    (oracle : nat -> Sched) (fuel : nat) :
  0 < len_loader (DCGAN.batch_size p) ->
  0 < len_loader (Nlzl16.batch_size q) ->
  Nlzl16.step q <= fuel ->
  (exists s, DCGAN.run p oracle = Some s /\
     iters s = DCGAN.n_epochs p * 1000 /\
     length (G_losses s) = DCGAN.n_epochs p * 1000 /\
     length (D_losses s) = DCGAN.n_epochs p * 1000) /\
  (exists s, Nlzl16.run fuel q oracle = Some s /\
     iters s = Nlzl16.step q /\
     length (G_losses s) = Nlzl16.step q /\
     length (D_losses s) = Nlzl16.step q).
Proof.
  intros Hp Hq Hfuel. split.
  - destruct (DCGAN_run_advanced p oracle Hp) as (s & E & A1 & A2 & A3 & _).
    exists s. auto.
  - destruct (Nlzl16_run_advanced fuel q oracle Hq Hfuel) as (s & E & A1 & A2 & A3 & _).
    exists s. auto.
Qed.

(** C10. In [DCGAN.py], on a loader that is not empty, training ends and
    [img_list[-1]] is then defined exactly when the loader has at most
    1000 batches and there is at least one epoch: the guarded sample is
    taken once, in the last epoch at [i = len(train_loader) - 1], an index
    the inner loop reaches only if it is below 1000. With the 50000 images
    of CIFAR-100 and the configured batch size of 128 the loader has 391
    batches and the configured [n_epochs] is 50. *)
Theorem img_list_last_defined (p : DCGAN.Params) (oracle : nat -> Sched) :
  0 < len_loader (DCGAN.batch_size p) ->
  (exists s, DCGAN.run p oracle = Some s /\
     (is_Some (DCGAN.last_image (img_list s)) <->
      len_loader (DCGAN.batch_size p) <= 1000 /\ 1 <= DCGAN.n_epochs p)) /\
  (dataset_len = CIFAR100_train_len ->
   len_loader (DCGAN.batch_size DCGAN.params) = 391 /\
   exists s, DCGAN.run DCGAN.params oracle = Some s /\
     length (img_list s) = 1 /\ is_Some (DCGAN.last_image (img_list s))).
Proof.
  intros Hlen.
  assert (Hlast : forall l : list Grid, is_Some (DCGAN.last_image l) <-> 0 < length l).
  { intros l. destruct l as [|x l]; cbn [DCGAN.last_image length].
    - split; [intros [? ?]; discriminate | lia].
    - split; [lia|]. intros _. apply lookup_lt_is_Some. cbn [length]. lia. }
  split.
  - destruct (DCGAN_run_advanced p oracle Hlen) as (s & E & _ & _ & _ & A & _).
    exists s. split; [exact E|]. rewrite Hlast, A.
    destruct (Nat.leb_spec 1 (DCGAN.n_epochs p));
      destruct (Nat.leb_spec (len_loader (DCGAN.batch_size p)) 1000);
      cbn [andb]; lia.
  - intros Hdata.
    assert (H391 : len_loader (DCGAN.batch_size DCGAN.params) = 391).
    { unfold len_loader. rewrite Hdata. vm_compute. reflexivity. }
    split; [exact H391|].
    destruct (DCGAN_run_advanced DCGAN.params oracle ltac:(rewrite H391; lia))
      as (s & E & _ & _ & _ & A & _).
    exists s. split; [exact E|]. rewrite H391 in A.
    change ((1 <=? DCGAN.n_epochs DCGAN.params) && (391 <=? 1000)) with true in A.
    cbv iota in A.
    split; [exact A|]. apply Hlast. lia.
Qed.

End StepClaims.

(** * Reproducibility *)

Section Reproducibility.
Context {T : Torch}.
Hypothesis Hdet : deterministic_kernels T.

Lemma generate_det sc sc' b nz s : generate sc b nz s = generate sc' b nz s.
Proof.
  destruct Hdet as (HG & _). unfold generate. rewrite (HG sc sc'). reflexivity.
Qed.

Lemma forward_D_det sc sc' x s : forward_D sc x s = forward_D sc' x s.
Proof.
  destruct Hdet as (_ & HD & _). unfold forward_D. rewrite (HD sc sc'). reflexivity.
Qed.

Lemma criterion_det sc sc' o l : criterion sc o l = criterion sc' o l.
Proof.
  destruct Hdet as (_ & _ & HB & _). unfold criterion. rewrite (HB sc sc'). reflexivity.
Qed.

Lemma backward_det sc sc' l s : backward sc l s = backward sc' l s.
Proof.
  destruct Hdet as (_ & _ & _ & HgD & HgG & _). unfold backward.
  rewrite (HgD sc sc'). destruct (img_grad_fn (out_input (loss_out l))); [|reflexivity].
  rewrite (HgG sc sc'). reflexivity.
Qed.

Lemma step_D_det sc sc' s : step_D sc s = step_D sc' s.
Proof.
  destruct Hdet as (_ & _ & _ & _ & _ & _ & HA). unfold step_D.
  destruct (gradD (disc s)); [|reflexivity]. rewrite (HA sc sc'). reflexivity.
Qed.

Lemma step_G_det sc sc' s : step_G sc s = step_G sc' s.
Proof.
  destruct Hdet as (_ & _ & _ & _ & _ & HA & _). unfold step_G.
  destruct (gradG (gen s)); [|reflexivity]. rewrite (HA sc sc'). reflexivity.
Qed.

Lemma snapshot_det sc sc' fn s : snapshot sc fn s = snapshot sc' fn s.
Proof.
  destruct Hdet as (HG & _). unfold snapshot. rewrite (HG sc sc'). reflexivity.
Qed.

Lemma D_real_pass_det sc sc' rl data s :
  D_real_pass sc rl data s = D_real_pass sc' rl data s.
Proof.
  unfold D_real_pass. rewrite (forward_D_det sc sc').
  destruct (forward_D sc' _ _) as [o s1].
  rewrite (criterion_det sc sc'), (backward_det sc sc'). reflexivity.
Qed.

Lemma D_fake_pass_det sc sc' fl label fake s :
  D_fake_pass sc fl label fake s = D_fake_pass sc' fl label fake s.
Proof.
  unfold D_fake_pass. rewrite (forward_D_det sc sc').
  destruct (forward_D sc' _ _) as [o s1].
  rewrite (criterion_det sc sc'), (backward_det sc sc'). reflexivity.
Qed.

Lemma G_pass_det sc sc' rl label fake s :
  G_pass sc rl label fake s = G_pass sc' rl label fake s.
Proof.
  unfold G_pass. rewrite (forward_D_det sc sc').
  destruct (forward_D sc' _ _) as [o s1].
  rewrite (criterion_det sc sc'), (backward_det sc sc'). reflexivity.
Qed.

Lemma DCGAN_step_det p sc sc' data s :
  DCGAN.train_step p sc data s = DCGAN.train_step p sc' data s.
Proof.
  unfold DCGAN.train_step. rewrite (D_real_pass_det sc sc').
  destruct (D_real_pass sc' _ _ _) as [[label er] s1].
  rewrite (generate_det sc sc'). destruct (generate sc' _ _ _) as [fake s2].
  rewrite (D_fake_pass_det sc sc'). destruct (D_fake_pass sc' _ _ _ _) as [[label' ef] s3].
  rewrite (step_D_det sc sc'), (G_pass_det sc sc').
  destruct (G_pass sc' _ _ _ _) as [eg s4].
  rewrite (step_G_det sc sc'). reflexivity.
Qed.

Lemma Nlzl16_step_det q sc sc' data s :
  Nlzl16.train_step q sc data s = Nlzl16.train_step q sc' data s.
Proof.
  unfold Nlzl16.train_step. rewrite (D_real_pass_det sc sc').
  destruct (D_real_pass sc' _ _ _) as [[label er] s1].
  rewrite (generate_det sc sc'). destruct (generate sc' _ _ _) as [fake s2].
  rewrite (D_fake_pass_det sc sc'). destruct (D_fake_pass sc' _ _ _ _) as [[label' ef] s3].
  rewrite (step_D_det sc sc'), (G_pass_det sc sc').
  destruct (G_pass sc' _ _ _ _) as [eg s4].
  rewrite (step_G_det sc sc'). reflexivity.
Qed.

Lemma for_each_ext {A S : Type} (f g : A -> S -> option S) (l : list A) :
  (forall a s, f a s = g a s) -> forall s, for_each f l s = for_each g l s.
Proof.
  intros H. induction l as [|a l IH]; intros s; cbn [for_each]; [reflexivity|].
  rewrite H. destruct (g a s); [apply IH | reflexivity].
Qed.

Lemma DCGAN_body_det p (o1 o2 : nat -> Sched) fn epoch i s :
  DCGAN.loop_body p o1 fn epoch i s = DCGAN.loop_body p o2 fn epoch i s.
Proof.
  unfold DCGAN.loop_body. destruct (DCGAN.next_batch p s) as [[data s1]|]; [|reflexivity].
  rewrite (DCGAN_step_det p (o1 (iters s1)) (o2 (iters s1))).
  rewrite (snapshot_det (o1 (iters s1)) (o2 (iters s1))). reflexivity.
Qed.

Lemma DCGAN_train_det p (o1 o2 : nat -> Sched) fn s :
  DCGAN.train p o1 fn s = DCGAN.train p o2 fn s.
Proof.
  unfold DCGAN.train. apply for_each_ext. intros epoch s1.
  apply for_each_ext. intros i s2. apply DCGAN_body_det.
Qed.

Lemma Nlzl16_body_det q (o1 o2 : nat -> Sched) fn data s :
  Nlzl16.loop_body q o1 fn data s = Nlzl16.loop_body q o2 fn data s.
Proof.
  unfold Nlzl16.loop_body.
  rewrite (Nlzl16_step_det q (o1 (iters s)) (o2 (iters s))).
  destruct (Nlzl16.train_step q (o2 (iters s)) data s) as [[errG errD] s1].
  rewrite (snapshot_det (o1 (iters s)) (o2 (iters s))). reflexivity.
Qed.

Lemma Nlzl16_for_batches_det q (o1 o2 : nat -> Sched) fn batches :
  forall s, Nlzl16.for_batches q o1 fn batches s = Nlzl16.for_batches q o2 fn batches s.
Proof.
  induction batches as [|data rest IH]; intros s; cbn [Nlzl16.for_batches]; [reflexivity|].
  destruct (Nlzl16.step q <=? iters s); [reflexivity|].
  rewrite (Nlzl16_body_det q o1 o2). apply IH.
Qed.

Lemma Nlzl16_train_det q (o1 o2 : nat -> Sched) fn fuel :
  forall s, Nlzl16.train fuel q o1 fn s = Nlzl16.train fuel q o2 fn s.
Proof.
  induction fuel as [|fuel IH]; intros s; cbn [Nlzl16.train]; [reflexivity|].
  destruct (iters s <? Nlzl16.step q); [|reflexivity].
  destruct (start_pass (Nlzl16.batch_size q) s) as [batches s1].
  rewrite (Nlzl16_for_batches_det q o1 o2). apply IH.
Qed.

End Reproducibility.

Section ReproducibilityClaim.
Context {T : Torch}.


End ReproducibilityClaim.

(** * Shapes *)

Lemma ConvTranspose2d_shape (n c cout k s p h w h' w' : nat) :
  conv_transpose_out h k s p = Z.of_nat h' ->
  conv_transpose_out w k s p = Z.of_nat w' ->
  0 < h' -> 0 < w' ->
  layer_shape (ConvTranspose2d c cout k s p) (n, c, h, w) = Some (n, cout, h', w').
Proof.
  intros Hh Hw Ph Pw. cbn [layer_shape]. rewrite Hh, Hw, Nat.eqb_refl, !Nat2Z.id.
  replace (0 <? Z.of_nat h')%Z with true by (symmetry; apply Z.ltb_lt; lia).
  replace (0 <? Z.of_nat w')%Z with true by (symmetry; apply Z.ltb_lt; lia).
  reflexivity.
Qed.

Lemma Conv2d_shape (n c cout k s p h w h' w' : nat) :
  conv_out h k s p = Z.of_nat h' ->
  conv_out w k s p = Z.of_nat w' ->
  k <= h + 2 * p -> k <= w + 2 * p ->
  layer_shape (Conv2d c cout k s p) (n, c, h, w) = Some (n, cout, h', w').
Proof.
  intros Hh Hw Ph Pw. cbn [layer_shape]. rewrite Hh, Hw, Nat.eqb_refl, !Nat2Z.id.
  rewrite (proj2 (Nat.leb_le _ _) Ph), (proj2 (Nat.leb_le _ _) Pw). reflexivity.
Qed.

Lemma BatchNorm2d_shape (n c h w : nat) :
  1 < n * h * w ->
  layer_shape (BatchNorm2d c) (n, c, h, w) = Some (n, c, h, w).
Proof.
  intros H. cbn [layer_shape]. rewrite Nat.eqb_refl.
  rewrite (proj2 (Nat.ltb_lt _ _) H). reflexivity.
Qed.

Ltac layer :=
  cbn [sequential_shape app concat replicate];
  lazymatch goal with
  | |- context [layer_shape (ConvTranspose2d ?c ?co ?k ?s ?p) (?n, ?c, ?h, ?w)] =>
      let h' := eval vm_compute in (Z.to_nat (conv_transpose_out h k s p)) in
      let w' := eval vm_compute in (Z.to_nat (conv_transpose_out w k s p)) in
      rewrite (ConvTranspose2d_shape n c co k s p h w h' w') by (reflexivity || lia)
  | |- context [layer_shape (Conv2d ?c ?co ?k ?s ?p) (?n, ?c, ?h, ?w)] =>
      let h' := eval vm_compute in (Z.to_nat (conv_out h k s p)) in
      let w' := eval vm_compute in (Z.to_nat (conv_out w k s p)) in
      rewrite (Conv2d_shape n c co k s p h w h' w') by (reflexivity || lia)
  | |- context [layer_shape (BatchNorm2d ?c) (?n, ?c, ?h, ?w)] =>
      rewrite (BatchNorm2d_shape n c h w) by lia
  | |- context [layer_shape ReLU (?n, ?c, ?h, ?w)] =>
      change (layer_shape ReLU (n, c, h, w)) with (Some (n, c, h, w))
  | |- context [layer_shape LeakyReLU (?n, ?c, ?h, ?w)] =>
      change (layer_shape LeakyReLU (n, c, h, w)) with (Some (n, c, h, w))
  | |- context [layer_shape Tanh (?n, ?c, ?h, ?w)] =>
      change (layer_shape Tanh (n, c, h, w)) with (Some (n, c, h, w))
  | |- context [layer_shape Sigmoid (?n, ?c, ?h, ?w)] =>
      change (layer_shape Sigmoid (n, c, h, w)) with (Some (n, c, h, w))
  end; cbv beta iota.

(** C4, as [DCGAN.py] has it. The Generator of [DCGAN.py] maps a latent
    batch of shape (batch, nz, 1, 1), batch at least 1, to a batch of
    shape (batch, nc, 33, 33): its transposed convolutions of kernel 3,
    stride 2, padding 1 take a side h to 2h - 1, so the sides are 1, 3, 5,
    9, 17, 33, and not the 32 of the data. *)
Theorem DCGAN_generator_shape (nc nz ngf b : nat) :
  sequential_shape (DCGAN_nets.Generator nc nz ngf) (S b, nz, 1, 1)
  = Some (S b, nc, 33, 33).
Proof.
  unfold DCGAN_nets.Generator.
  repeat layer. reflexivity.
Qed.

(** The Generator of [nlzl16_generative_model.py] closes with a kernel of
    4 and a padding of 2, which takes the side 17 to 32. *)
Lemma Nlzl16_generator_shape (p : Nlzl16.Params) (b : nat) :
  sequential_shape (Nlzl16_nets.Generator p) (S b, Nlzl16.nz p, 1, 1)
  = Some (S b, Nlzl16.nc p, 32, 32).
Proof.
  unfold Nlzl16_nets.Generator.
  repeat layer. reflexivity.
Qed.

(** netD of [DCGAN.py] takes images of side 32 and of side 33 alike: its
    first convolution maps both sides to 17. *)
Lemma DCGAN_discriminator_shape (nc ndf b side : nat) :
  side = 32 \/ side = 33 ->
  sequential_shape (DCGAN_nets.Discriminator nc ndf) (S b, nc, side, side)
  = Some (S b, 1, 1, 1).
Proof.
  unfold DCGAN_nets.Discriminator.
  intros [-> | ->]; repeat layer; reflexivity.
Qed.

(** Both Generators end with [nn.Tanh()], the layer that bounds the
    output. *)
Lemma generators_end_with_Tanh (nc nz ngf : nat) (p : Nlzl16.Params) :
  last (DCGAN_nets.Generator nc nz ngf) = Some Tanh /\
  last (Nlzl16_nets.Generator p) = Some Tanh.
Proof. split; reflexivity. Qed.

(** The networks as configured, on the configured batch sizes. *)
Example DCGAN_netG_128 :
  sequential_shape DCGAN_nets.netG (128, 100, 1, 1) = Some (128, 3, 33, 33).
Proof. vm_compute. reflexivity. Qed.

Example Nlzl16_netG_64 :
  sequential_shape Nlzl16_nets.netG (64, 128, 1, 1) = Some (64, 3, 32, 32).
Proof. vm_compute. reflexivity. Qed.

Example DCGAN_netD_33 :
  sequential_shape DCGAN_nets.netD (128, 3, 33, 33) = Some (128, 1, 1, 1).
Proof. vm_compute. reflexivity. Qed.

Example DCGAN_netD_32 :
  sequential_shape DCGAN_nets.netD (128, 3, 32, 32) = Some (128, 1, 1, 1).
Proof. vm_compute. reflexivity. Qed.

(** * The interpolation block *)

Section InterpolationFacts.
Context {Fl : Float}.

(** C5, as [DCGAN.py] has it. Whatever [sample_noise] of four dimensions
    the sampling step hands over (it is 10000 x nz x 1 x 1), the block of
    [DCGAN.py] raises at its first statement: [repeat(col_size, 1)] gives
    two repeat sizes to a tensor of four dimensions. No interpolated latent
    is computed and nothing is decoded. *)
Theorem DCGAN_interpolation_raises (p : DCGAN.Params) (n c h w : nat) (d : list F) :
  DCGAN_interpolation p {| shape := [n; c; h; w]; data := d |} = Raise RepeatDims.
Proof. reflexivity. Qed.

Lemma Nlzl16_endpoints_law (z : N -> F) :
  Nlzl16_endpoints Nlzl16.params (Nlzl16_sample z) =
  Ok ({| shape := [64; 1; 1; 1];
         data := map (fun i => Nlzl16_t_elem (N.of_nat i)) (seq 0 64) |},
      {| shape := [64; 128; 1; 1];
         data := map (fun k => Nlzl16_z0_elem z (N.of_nat k)) (seq 0 8192) |},
      {| shape := [64; 128; 1; 1];
         data := map (fun k => Nlzl16_z1_elem z (N.of_nat k)) (seq 0 8192) |}).
Proof. vm_compute. reflexivity. Qed.

Lemma Nlzl16_lerp_law (z : N -> F) :
  Nlzl16_interpolation Nlzl16.params (Nlzl16_sample z) =
  Ok {| shape := [64; 128; 1; 1];
        data := map (fun k => Nlzl16_lerp_elem z (N.of_nat k)) (seq 0 8192) |}.
Proof. vm_compute. reflexivity. Qed.

(** In [nlzl16_generative_model.py] the first eight rows of [lerp_z] (the
    fraction 0) are the first eight rows of [sample_noise], which are those
    of [z0], and its last eight rows (the fraction 1) are the last eight
    rows of [sample_noise], which are those of [z1]. *)
Lemma Nlzl16_lerp_endpoints (z : N -> F) (k : N) :
  endpoint_laws ->
  (k < 1024 \/ 7168 <= k < 8192)%N ->
  Nlzl16_lerp_elem z k = z k.
Proof.
  intros (L0 & L1 & S0 & S1 & M1 & M0 & A0 & A1) Hk.
  unfold Nlzl16_lerp_elem, Nlzl16_t_elem, Nlzl16_z0_elem, Nlzl16_z1_elem. cbv zeta.
  destruct Hk as [Hk | Hk].
  - replace (k / 128 / 8)%N with 0%N.
    2: { symmetry. apply N.div_small. apply N.Div0.div_lt_upper_bound. lia. }
    replace (k / 128 mod 8)%N with (k / 128)%N.
    2: { symmetry. apply N.mod_small. apply N.Div0.div_lt_upper_bound. lia. }
    change (N.to_nat 0) with 0. rewrite L0, S0, M1, M0, A0.
    f_equal. rewrite (N.div_mod k 128) at 3 by lia. lia.
  - assert (H7 : (k / 128 / 8 = 7)%N).
    { rewrite N.Div0.div_div. symmetry. apply (N.div_unique k (128 * 8) 7 (k - 7168)); lia. }
    assert (Hm : (56 + k / 128 mod 8 = k / 128)%N).
    { rewrite (N.div_mod (k / 128) 8) at 2 by lia. rewrite H7. lia. }
    rewrite H7, Hm. change (N.to_nat 7) with 7. rewrite L1, S1, M0, M1, A1.
    f_equal. rewrite (N.div_mod k 128) at 3 by lia. lia.
Qed.

End InterpolationFacts.

(** * The image directories *)

Lemma setup_directory_Some (d : string) (fs : gmap string Node) :
  fs !! d <> Some File ->
  setup_directory d fs = Some (<[d := Dir ∅]> fs).
Proof.
  intros H. unfold setup_directory, exists_path, rmtree, makedirs.
  destruct (fs !! d) as [[|files]|] eqn:E; [congruence| |].
  - cbn. rewrite lookup_delete_eq. rewrite insert_delete_eq. reflexivity.
  - cbn. rewrite E. reflexivity.
Qed.

Lemma setup_directory_File (d : string) (fs : gmap string Node) :
  fs !! d = Some File -> setup_directory d fs = None.
Proof.
  intros H. unfold setup_directory, exists_path, rmtree. rewrite H. reflexivity.
Qed.

Lemma save_images_Some (ns : list nat) :
  forall (fs : gmap string Node) (files : gset string),
    fs !! generated_images_dir = Some (Dir files) ->
    save_images ns fs =
    Some (<[generated_images_dir := Dir (list_to_set (gen_img <$> ns) ∪ files)]> fs).
Proof.
  induction ns as [|n ns IH]; intros fs files H.
  - cbn. rewrite union_empty_l_L. rewrite insert_id by exact H. reflexivity.
  - cbn [save_images]. unfold write_in at 1. rewrite H. cbn [mbind option_bind].
    rewrite (IH _ ({[gen_img n]} ∪ files)) by apply lookup_insert_eq.
    rewrite insert_insert_eq. do 3 f_equal.
    rewrite fmap_cons, list_to_set_cons.
    apply set_eq. intros x. rewrite !elem_of_union. tauto.
Qed.

Lemma save_samples_Some (its : list nat) :
  forall (fs : gmap string Node) (files : gset string),
    fs !! sample_dir = Some (Dir files) ->
    exists files',
      save_samples its fs = Some (<[sample_dir := Dir files']> fs).
Proof.
  induction its as [|i its IH]; intros fs files H.
  - exists files. cbn. rewrite insert_id by exact H. reflexivity.
  - cbn [save_samples]. destruct (i mod 5000 =? 0).
    + unfold write_in at 1. rewrite H. cbn [mbind option_bind].
      destruct (IH (<[sample_dir := Dir ({[sample_name i]} ∪ files)]> fs)
                   ({[sample_name i]} ∪ files)) as (files' & E);
        [apply lookup_insert_eq|].
      exists files'. rewrite E, insert_insert_eq. reflexivity.
    + apply (IH fs files H).
Qed.

Lemma savefig_Some (name : string) (fs : gmap string Node) :
  (forall files, fs !! name <> Some (Dir files)) ->
  savefig name fs = Some (<[name := File]> fs).
Proof.
  intros H. unfold savefig. destruct (fs !! name) as [[|files]|] eqn:E; try reflexivity.
  destruct (H files). reflexivity.
Qed.

Lemma rounds_step (n num : nat) :
  num < n -> (n - num + 99) / 100 = (n - (num + 100) + 99) / 100 + 1.
Proof.
  intros H. destruct (Nat.le_gt_cases 100 (n - num)).
  - replace (n - num + 99) with ((n - (num + 100) + 99) + 1 * 100) by lia.
    rewrite Nat.div_add by lia. reflexivity.
  - replace (n - (num + 100) + 99) with 99 by lia. change (99 / 100) with 0.
    symmetry. apply (Nat.div_unique _ 100 1 (n - num - 1)); lia.
Qed.

(** The rounds of the sampling loop: a hundred images each, until [num]
    reaches [n_samples]. *)
Lemma sampling_Some (n_samples : nat) :
  forall (fuel num : nat) (fs : gmap string Node) (files : gset string),
    fs !! generated_images_dir = Some (Dir files) ->
    n_samples <= num + 100 * fuel ->
    sampling fuel n_samples num fs =
    Some (<[generated_images_dir :=
              Dir (list_to_set (gen_img <$> seq num (100 * ((n_samples - num + 99) / 100)))
                   ∪ files)]> fs).
Proof.
  induction fuel as [|fuel IH]; intros num fs files H Hf.
  - cbn [sampling]. replace (num <? n_samples) with false by (symmetry; apply Nat.ltb_ge; lia).
    replace (n_samples - num + 99) with 99 by lia.
    change (99 / 100) with 0. cbn.
    rewrite union_empty_l_L, insert_id by exact H. reflexivity.
  - cbn [sampling]. destruct (num <? n_samples) eqn:E.
    + apply Nat.ltb_lt in E.
      rewrite (save_images_Some _ fs files H). cbn [mbind option_bind].
      rewrite (IH (num + 100) _ (list_to_set (gen_img <$> seq num 100) ∪ files))
        by (try apply lookup_insert_eq; lia).
      rewrite insert_insert_eq. do 3 f_equal.
      rewrite (rounds_step n_samples num E).
      replace (100 * ((n_samples - (num + 100) + 99) / 100 + 1))
        with (100 + 100 * ((n_samples - (num + 100) + 99) / 100)) by lia.
      rewrite seq_app, fmap_app, list_to_set_app_L.
      apply set_eq. intros x. rewrite !elem_of_union. tauto.
    + apply Nat.ltb_ge in E.
      replace (n_samples - num + 99) with 99 by lia.
      change (99 / 100) with 0. cbn.
      rewrite union_empty_l_L, insert_id by exact H. reflexivity.
Qed.

Lemma DCGAN_files_Some (n_samples : nat) (fs : gmap string Node) :
  names_free fs ->
  DCGAN_files n_samples fs =
  Some (fs !! real_images_dir,
        Some (Dir (list_to_set (gen_img <$> seq 0 n_samples)))).
Proof.
  intros (Hg & Hs & HI & Hi & Ht & Hp). unfold DCGAN_files.
  rewrite savefig_Some by exact HI.
  cbn [mbind option_bind].
  rewrite setup_directory_Some by (rewrite lookup_insert_ne by done; exact Hg).
  cbn [mbind option_bind].
  rewrite (save_images_Some _ _ ∅) by apply lookup_insert_eq.
  cbn [mbind option_bind]. rewrite insert_insert_eq, union_empty_r_L.
  rewrite savefig_Some
    by (intros files; rewrite !lookup_insert_ne by done; apply Ht).
  cbn [mbind option_bind].
  rewrite savefig_Some
    by (intros files; rewrite !lookup_insert_ne by done; apply Hp).
  cbn [mbind option_bind]. unfold fid_inputs.
  rewrite !lookup_insert_ne by done.
  rewrite lookup_insert_eq. reflexivity.
Qed.

Lemma Nlzl16_files_Some (fuel steps n_samples : nat) (fs : gmap string Node) :
  names_free fs ->
  n_samples <= 100 * fuel ->
  Nlzl16_files fuel steps n_samples fs =
  Some (fs !! real_images_dir,
        Some (Dir (list_to_set (gen_img <$> seq 0 (100 * ((n_samples + 99) / 100)))))).
Proof.
  intros (Hg & Hs & HI & Hi & Ht & Hp) Hfuel. unfold Nlzl16_files.
  rewrite setup_directory_Some by exact Hs.
  cbn [mbind option_bind].
  rewrite setup_directory_Some by (rewrite lookup_insert_ne by done; exact Hg).
  cbn [mbind option_bind].
  destruct (save_samples_Some (seq 0 steps)
              (<[generated_images_dir := Dir ∅]> (<[sample_dir := Dir ∅]> fs)) ∅)
    as (files' & ->).
  { rewrite lookup_insert_ne by done. apply lookup_insert_eq. }
  cbn [mbind option_bind].
  rewrite savefig_Some
    by (intros files; rewrite !lookup_insert_ne by done; apply Hi).
  cbn [mbind option_bind].
  rewrite (sampling_Some n_samples fuel 0 _ ∅).
  2: { rewrite !lookup_insert_ne by done. apply lookup_insert_eq. }
  2: { lia. }
  cbn [mbind option_bind]. rewrite Nat.sub_0_r, union_empty_r_L.
  rewrite savefig_Some
    by (intros files; rewrite !lookup_insert_ne by done; apply Ht).
  cbn [mbind option_bind].
  rewrite savefig_Some
    by (intros files; rewrite !lookup_insert_ne by done; apply Hp).
  cbn [mbind option_bind]. unfold fid_inputs.
  rewrite !lookup_insert_ne by done.
  rewrite lookup_insert_eq. reflexivity.
Qed.

Lemma stale_fs_names_free : names_free stale_fs.
Proof. repeat split; intros; vm_compute; discriminate. Qed.




(** * The claims at concrete inputs *)

Example small_step_run_losses :
  (fun s => (G_losses s, D_losses s, iters s)) <$>
    @Nlzl16.run toy 2 small_step_run (fun _ => true) =
  Some ([843%Z; 123%Z], [285%Z; 590%Z], 2).
Proof. vm_compute. reflexivity. Qed.

Lemma toy_deterministic n : deterministic_kernels (toy_data n).
Proof. repeat split. Defined.

Lemma phase_D_protocol_witness :
  (forall a b : Z, (a + b)%Z = (b + a)%Z) /\
  D_losses (@DCGAN.train_step toy small_epoch_run true 3%Z toy_start) = [254%Z] /\
  D_losses (@Nlzl16.loop_body toy small_step_run (fun _ => true) 0%Z 3%Z toy_start)
    = [254%Z].
Proof.
  split; [exact Z.add_comm|].
  pose proof (@phase_D_protocol toy small_epoch_run small_step_run
                (fun _ => true) 0%Z 3%Z toy_start Z.add_comm) as H.
  cbv zeta in H. destruct H as ((_ & _ & H1) & (_ & _ & H2) & _).
  split; [exact H1 | exact H2].
Defined.

Lemma phase_order_witness :
  0 < @len_loader toy 4 /\ 2 <= 2 /\
  exists s', @Nlzl16.run toy 2 small_step_run (fun _ => true) = Some s' /\
    filter is_step (log s') = [EvStepD; EvStepG; EvStepD; EvStepG].
Proof.
  assert (H : 0 < @len_loader toy 4) by (vm_compute; lia).
  split; [exact H|]. split; [lia|].
  exact (proj2 (proj2 (proj2 (proj2
           (@phase_order toy small_epoch_run small_step_run (fun _ => true) 2 true
              3%Z toy_start H H (le_n 2)))))).
Defined.

Lemma zero_budget_witness :
  DCGAN.n_epochs no_epoch_run = 0 /\ Nlzl16.step no_step_run = 0 /\
  exists s, @DCGAN.run toy no_epoch_run (fun _ => true) = Some s /\
    s = (@initial_state toy DCGAN.SEED 4 8).2 /\
    thetaG (gen s) = 1%Z /\ thetaD (disc s) = 2%Z.
Proof.
  split; [reflexivity|]. split; [reflexivity|].
  exact (proj1 (@zero_budget toy no_epoch_run no_step_run (fun _ => true) 0
                  eq_refl eq_refl)).
Defined.

Lemma training_budget_witness :
  0 < @len_loader toy 4 /\ 2 <= 2 /\
  exists s, @Nlzl16.run toy 2 small_step_run (fun _ => true) = Some s /\
    iters s = 2 /\ length (G_losses s) = 2 /\ length (D_losses s) = 2.
Proof.
  assert (H : 0 < @len_loader toy 4) by (vm_compute; lia).
  split; [exact H|]. split; [lia|].
  exact (proj2 (@training_budget toy small_epoch_run small_step_run (fun _ => true) 2
                  H H (le_n 2))).
Defined.


Lemma img_list_last_defined_witness :
  0 < @len_loader (toy_data CIFAR100_train_len) (DCGAN.batch_size DCGAN.params) /\
  @dataset_len (toy_data CIFAR100_train_len) = CIFAR100_train_len /\
  @len_loader (toy_data CIFAR100_train_len) (DCGAN.batch_size DCGAN.params) = 391 /\
  exists s, @DCGAN.run (toy_data CIFAR100_train_len) DCGAN.params (fun _ => true) = Some s /\
    length (img_list s) = 1 /\ is_Some (DCGAN.last_image (img_list s)).
Proof.
  assert (H : 0 < @len_loader (toy_data CIFAR100_train_len) (DCGAN.batch_size DCGAN.params))
    by (vm_compute; lia).
  split; [exact H|]. split; [reflexivity|].
  exact (proj2 (@img_list_last_defined (toy_data CIFAR100_train_len) DCGAN.params
                  (fun _ => true) H) eq_refl).
Defined.

(** * More on the image directories *)



(** X3. Setting a directory up a second time changes nothing more. *)
Theorem setup_directory_idempotent (d : string) (fs fs' : gmap string Node) :
  setup_directory d fs = Some fs' ->
  setup_directory d fs' = Some fs'.
Proof.
  intros H.
  assert (Hd : fs !! d <> Some File).
  { intros E. rewrite setup_directory_File in H by exact E. discriminate. }
  rewrite setup_directory_Some in H by exact Hd. injection H as <-.
  rewrite setup_directory_Some by (rewrite lookup_insert_eq; discriminate).
  rewrite insert_insert_eq. reflexivity.
Qed.

Lemma string_length_app (s t : string) :
  String.length (s +:+ t) = String.length s + String.length t.
Proof.
  induction s as [|a s IH]; [reflexivity|].
  change (S (String.length (s +:+ t)) = S (String.length s + String.length t)).
  rewrite IH. reflexivity.
Qed.

Lemma string_app_inj_r (t s1 s2 : string) :
  s1 +:+ t = s2 +:+ t -> s1 = s2.
Proof.
  revert s2. induction s1 as [|a s1 IH]; intros [|b s2] H.
  - reflexivity.
  - apply (f_equal String.length) in H.
    rewrite !string_length_app in H. cbn [String.length] in H. lia.
  - apply (f_equal String.length) in H.
    rewrite !string_length_app in H. cbn [String.length] in H. lia.
  - change (String a (s1 +:+ t) = String b (s2 +:+ t)) in H.
    injection H as -> H. f_equal. apply IH, H.
Qed.

Lemma gen_img_inj (n m : nat) : gen_img n = gen_img m -> n = m.
Proof.
  unfold gen_img. intros H.
  apply (inj (String.app "gen_img_")) in H.
  apply string_app_inj_r in H. apply (inj pretty) in H. exact H.
Qed.

Lemma sample_name_inj (n m : nat) : sample_name n = sample_name m -> n = m.
Proof.
  unfold sample_name. intros H.
  apply (inj (String.app "sample_")) in H.
  apply string_app_inj_r in H. apply (inj pretty) in H. exact H.
Qed.

Lemma size_named (name : nat -> string) (l : list nat) :
  (forall n m, name n = name m -> n = m) ->
  NoDup l ->
  size (list_to_set (C := gset string) (name <$> l)) = length l.
Proof.
  intros Hinj Hl. rewrite size_list_to_set.
  - apply length_fmap.
  - apply NoDup_fmap_2; [|exact Hl]. intros n m. apply Hinj.
Qed.


(** X5. The sampling loop of [nlzl16_generative_model.py] saves a hundred
    images a round and tests [num < n_samples] between rounds only: it
    leaves [n_samples] rounded up to a multiple of 100 files, which is
    [n_samples] exactly when 100 divides it and more otherwise. *)
Theorem Nlzl16_saves_whole_rounds (fuel steps n_samples : nat) (fs : gmap string Node) :
  names_free fs ->
  n_samples <= 100 * fuel ->
  exists real files,
    Nlzl16_files fuel steps n_samples fs = Some (real, Some (Dir files)) /\
    size files = 100 * ((n_samples + 99) / 100) /\
    n_samples <= size files < n_samples + 100 /\
    (size files = n_samples <-> n_samples mod 100 = 0).
Proof.
  intros Hfree Hfuel. eexists _, _.
  split; [apply Nlzl16_files_Some; assumption|].
  rewrite (size_named gen_img) by (apply gen_img_inj || apply NoDup_seq).
  rewrite length_seq. split; [reflexivity|].
  pose proof (Nat.div_mod_eq (n_samples + 99) 100) as E.
  pose proof (Nat.mod_upper_bound (n_samples + 99) 100 ltac:(lia)) as B.
  pose proof (Nat.div_mod_eq n_samples 100) as E'.
  pose proof (Nat.mod_upper_bound n_samples 100 ltac:(lia)) as B'.
  assert (K : 100 * ((n_samples + 99) / 100) =
              if n_samples mod 100 =? 0 then n_samples
              else n_samples + (100 - n_samples mod 100)).
  { destruct (Nat.eqb_spec (n_samples mod 100) 0) as [Z|NZ].
    - rewrite Z in E'. rewrite E' at 1.
      replace (100 * (n_samples / 100) + 0 + 99) with (99 + (n_samples / 100) * 100) by lia.
      rewrite Nat.div_add by lia. change (99 / 100) with 0. lia.
    - rewrite E' at 1.
      replace (100 * (n_samples / 100) + n_samples mod 100 + 99)
        with ((n_samples mod 100 - 1) + (n_samples / 100 + 1) * 100) by lia.
      rewrite Nat.div_add by lia.
      rewrite (Nat.div_small (n_samples mod 100 - 1) 100) by lia. lia. }
  rewrite K. destruct (Nat.eqb_spec (n_samples mod 100) 0); split; lia.
Qed.

Lemma save_samples_files (its : list nat) :
  forall (fs : gmap string Node) (files : gset string),
    fs !! sample_dir = Some (Dir files) ->
    save_samples its fs =
    Some (<[sample_dir :=
              Dir (list_to_set (sample_name <$> filter (fun i => i mod 5000 = 0) its)
                   ∪ files)]> fs).
Proof.
  induction its as [|i its IH]; intros fs files H.
  - cbn. rewrite union_empty_l_L, insert_id by exact H. reflexivity.
  - cbn [save_samples]. rewrite filter_cons.
    destruct (Nat.eqb_spec (i mod 5000) 0) as [E|E].
    + rewrite decide_True by exact E.
      unfold write_in at 1. rewrite H. cbn [mbind option_bind].
      rewrite (IH _ ({[sample_name i]} ∪ files)) by apply lookup_insert_eq.
      rewrite insert_insert_eq. do 3 f_equal.
      rewrite fmap_cons, list_to_set_cons.
      apply set_eq. intros x. rewrite !elem_of_union. tauto.
    + rewrite decide_False by exact E. apply IH, H.
Qed.

Lemma ceil_div_succ (m n : nat) :
  0 < m ->
  (S n + (m - 1)) / m = (n + (m - 1)) / m + (if decide (n mod m = 0) then 1 else 0).
Proof.
  intros Hm.
  pose proof (Nat.div_mod_eq n m) as E.
  pose proof (Nat.mod_upper_bound n m ltac:(lia)) as B.
  set (q := n / m) in *. set (r := n mod m) in *.
  destruct (decide (r = 0)) as [Z|NZ].
  - rewrite <- (Nat.div_unique (S n + (m - 1)) m (q + 1) 0) by lia.
    rewrite <- (Nat.div_unique (n + (m - 1)) m q (m - 1)) by lia. reflexivity.
  - rewrite <- (Nat.div_unique (S n + (m - 1)) m (q + 1) r) by lia.
    rewrite <- (Nat.div_unique (n + (m - 1)) m (q + 1) (r - 1)) by lia. lia.
Qed.

Lemma multiples_below (m steps : nat) :
  0 < m ->
  length (filter (fun i => i mod m = 0) (seq 0 steps)) = (steps + (m - 1)) / m.
Proof.
  intros Hm. induction steps as [|n IH].
  - cbn [seq filter list_filter length Nat.add]. symmetry. apply Nat.div_small. lia.
  - rewrite seq_S, filter_app, length_app, IH. change (0 + n) with n.
    rewrite filter_cons, filter_nil, ceil_div_succ by exact Hm.
    destruct (decide (n mod m = 0)); reflexivity.
Qed.


(** * More on the shapes *)

Ltac activation :=
  lazymatch goal with
  | |- context [layer_shape ReLU (?n, ?c, ?h, ?w)] =>
      change (layer_shape ReLU (n, c, h, w)) with (Some (n, c, h, w))
  | |- context [layer_shape LeakyReLU (?n, ?c, ?h, ?w)] =>
      change (layer_shape LeakyReLU (n, c, h, w)) with (Some (n, c, h, w))
  | |- context [layer_shape Tanh (?n, ?c, ?h, ?w)] =>
      change (layer_shape Tanh (n, c, h, w)) with (Some (n, c, h, w))
  | |- context [layer_shape Sigmoid (?n, ?c, ?h, ?w)] =>
      change (layer_shape Sigmoid (n, c, h, w)) with (Some (n, c, h, w))
  end; cbv beta iota.

Ltac block_up h' w' :=
  rewrite (ConvTranspose2d_shape _ _ _ _ _ _ _ _ h' w')
    by (unfold conv_transpose_out; lia);
  cbv beta iota;
  try (rewrite BatchNorm2d_shape by lia; cbv beta iota);
  activation.

Lemma DCGAN_generator_hw (nc nz ngf b h w : nat) :
  sequential_shape (DCGAN_nets.Generator nc nz ngf) (S b, nz, S h, S w)
    = Some (S b, nc, 16 * h + 33, 16 * w + 33).
Proof.
  unfold DCGAN_nets.Generator. cbn [sequential_shape].
  block_up (h + 3) (w + 3). block_up (2 * h + 5) (2 * w + 5).
  block_up (4 * h + 9) (4 * w + 9). block_up (8 * h + 17) (8 * w + 17).
  block_up (16 * h + 33) (16 * w + 33). reflexivity.
Qed.

Lemma Nlzl16_generator_hw (p : Nlzl16.Params) (b h w : nat) :
  sequential_shape (Nlzl16_nets.Generator p) (S b, Nlzl16.nz p, S h, S w)
    = Some (S b, Nlzl16.nc p, 16 * h + 32, 16 * w + 32).
Proof.
  unfold Nlzl16_nets.Generator. cbn [sequential_shape app concat replicate].
  block_up (h + 3) (w + 3). block_up (2 * h + 5) (2 * w + 5).
  block_up (4 * h + 9) (4 * w + 9). block_up (8 * h + 17) (8 * w + 17).
  block_up (16 * h + 32) (16 * w + 32). reflexivity.
Qed.

(** X7. The Generators are convolutional through and through: fed a latent
    batch whose spatial size is not 1 x 1 but h x w, they return images of
    side 16 h + 17 ([DCGAN.py]) and 16 h + 16
    ([nlzl16_generative_model.py]); h = 1 gives the 33 and the 32. Below,
    the latent has sides [S h] and [S w]. *)
Theorem generators_scale_with_latent (nc nz ngf b h w : nat) (p : Nlzl16.Params) :
  sequential_shape (DCGAN_nets.Generator nc nz ngf) (S b, nz, S h, S w)
    = Some (S b, nc, 16 * h + 33, 16 * w + 33) /\
  sequential_shape (Nlzl16_nets.Generator p) (S b, Nlzl16.nz p, S h, S w)
    = Some (S b, Nlzl16.nc p, 16 * h + 32, 16 * w + 32).
Proof. split; [apply DCGAN_generator_hw | apply Nlzl16_generator_hw]. Qed.

Lemma Conv2d_some (n c c' cout k s p h w : nat) (y : Shape) :
  layer_shape (Conv2d c' cout k s p) (n, c, h, w) = Some y ->
  k <= h + 2 * p /\ k <= w + 2 * p /\
  y = (n, cout, Z.to_nat (conv_out h k s p), Z.to_nat (conv_out w k s p)).
Proof.
  cbn [layer_shape].
  destruct (c =? c'); [|discriminate].
  destruct (Nat.leb_spec k (h + 2 * p)); [|discriminate].
  destruct (Nat.leb_spec k (w + 2 * p)); [|discriminate].
  cbn [andb]. intros [= <-]. auto.
Qed.

Lemma BatchNorm2d_some (f : nat) (x y : Shape) :
  layer_shape (BatchNorm2d f) x = Some y -> y = x.
Proof.
  destruct x as [[[n c] h] w]. cbn [layer_shape].
  destruct ((c =? f) && (1 <? n * h * w)); [|discriminate]. intros [= <-]. reflexivity.
Qed.

Lemma sequential_shape_cons (l : Layer) (rest : list Layer) (x z : Shape) :
  sequential_shape (l :: rest) x = Some z <->
  exists y, layer_shape l x = Some y /\ sequential_shape rest y = Some z.
Proof.
  cbn [sequential_shape]. destruct (layer_shape l x) as [y|].
  - split; [eauto|]. intros (y' & [= <-] & H). exact H.
  - split; [discriminate|]. intros (y' & [=] & _).
Qed.

Ltac conv_some :=
  lazymatch goal with
  | H : sequential_shape (Conv2d _ _ _ _ _ :: _) _ = Some _ |- _ =>
      apply sequential_shape_cons in H;
      let y := fresh "y" in
      let Hy := fresh "Hy" in
      let Hk := fresh "Hk" in
      destruct H as (y & Hy & H);
      apply Conv2d_some in Hy; destruct Hy as (Hk & _ & ->)
  | H : sequential_shape (BatchNorm2d _ :: _) _ = Some _ |- _ =>
      apply sequential_shape_cons in H;
      let y := fresh "y" in
      let Hy := fresh "Hy" in
      destruct H as (y & Hy & H);
      apply BatchNorm2d_some in Hy; subst y
  | H : sequential_shape (LeakyReLU :: _) (?n, ?c, ?h, ?w) = Some _ |- _ =>
      apply sequential_shape_cons in H;
      let y := fresh "y" in
      let Hy := fresh "Hy" in
      destruct H as (y & Hy & H);
      injection Hy as <-
  | H : sequential_shape (Sigmoid :: _) (?n, ?c, ?h, ?w) = Some _ |- _ =>
      apply sequential_shape_cons in H;
      let y := fresh "y" in
      let Hy := fresh "Hy" in
      destruct H as (y & Hy & H);
      injection Hy as <-
  end.

(** The side a convolution returns, once its kernel fits. *)
Lemma conv_out_spec (h k s p : nat) :
  0 < s -> k <= h + 2 * p ->
  conv_out h k s p = Z.of_nat (Z.to_nat (conv_out h k s p)) /\
  1 <= Z.to_nat (conv_out h k s p) /\
  s * (Z.to_nat (conv_out h k s p) - 1) <= h + 2 * p - k
    < s * (Z.to_nat (conv_out h k s p) - 1) + s.
Proof.
  intros Hs Hk. unfold conv_out.
  assert (E : (Z.of_nat h + 2 * Z.of_nat p - (Z.of_nat k - 1) - 1
               = Z.of_nat (h + 2 * p - k))%Z) by lia.
  rewrite E, <- Nat2Z.inj_div.
  replace (Z.of_nat ((h + 2 * p - k) / s) + 1)%Z
    with (Z.of_nat ((h + 2 * p - k) / s + 1)) by lia.
  rewrite Nat2Z.id. split; [reflexivity|]. split; [lia|].
  pose proof (Nat.div_mod_eq (h + 2 * p - k) s) as D.
  pose proof (Nat.mod_upper_bound (h + 2 * p - k) s ltac:(lia)) as B.
  replace ((h + 2 * p - k) / s + 1 - 1) with ((h + 2 * p - k) / s) by lia.
  lia.
Qed.

Ltac name_side h k s p :=
  let G := fresh "G" in
  assert (G : k <= h + 2 * p) by (assumption || lia);
  let F := fresh "F" in
  pose proof (conv_out_spec h k s p ltac:(lia) G) as F;
  let d := fresh "d" in
  set (d := Z.to_nat (conv_out h k s p)) in *; clearbody d.

Ltac name_sides :=
  repeat match goal with
  | H : context [Z.to_nat (conv_out ?h ?k ?s ?p)] |- _ => is_var h; name_side h k s p
  end.

Ltac block_down :=
  lazymatch goal with
  | |- context [layer_shape (Conv2d ?c ?co ?k ?s ?p) (?n, ?c, ?h, ?h)] =>
      let G := fresh "G" in
      assert (G : k <= h + 2 * p) by lia;
      let F := fresh "F" in
      pose proof (conv_out_spec h k s p ltac:(lia) G) as F;
      let d := fresh "d" in
      set (d := Z.to_nat (conv_out h k s p)) in F;
      rewrite (Conv2d_shape n c co k s p h h d d (proj1 F) (proj1 F) G G);
      clearbody d; destruct F as (_ & F)
  end;
  cbv beta iota;
  try (rewrite BatchNorm2d_shape by nia; cbv beta iota);
  activation.

Lemma DCGAN_discriminator_sides (nc ndf b side : nat) :
  sequential_shape (DCGAN_nets.Discriminator nc ndf) (S b, nc, side, side)
    = Some (S b, 1, 1, 1) <-> 32 <= side <= 47.
Proof.
  split.
  - unfold DCGAN_nets.Discriminator. intros H.
    repeat conv_some. cbn [sequential_shape] in H. injection H as H.
    name_sides. lia.
  - intros H. unfold DCGAN_nets.Discriminator. cbn [sequential_shape].
    do 5 block_down. do 3 f_equal; lia.
Qed.

Lemma Nlzl16_discriminator_sides (p : Nlzl16.Params) (b side : nat) :
  sequential_shape (Nlzl16_nets.Discriminator p) (S b, Nlzl16.nc p, side, side)
    = Some (S b, 1, 1, 1) <-> 32 <= side <= 47.
Proof.
  split.
  - unfold Nlzl16_nets.Discriminator. cbn [app concat replicate]. intros H.
    repeat conv_some. cbn [sequential_shape] in H. injection H as H.
    name_sides. lia.
  - intros H. unfold Nlzl16_nets.Discriminator.
    cbn [sequential_shape app concat replicate].
    do 5 block_down. do 3 f_equal; lia.
Qed.

(** X8. netD gives one score per image exactly for square images of side 32
    to 47. Below 32 its last convolution finds less than its kernel (or,
    for a single tiny image, a batch normalisation finds a single value);
    from 48 on it returns a map of several scores per image, which
    [view(-1)] would flatten into more scores than labels. *)
Theorem discriminators_sides (nc ndf b side : nat) (p : Nlzl16.Params) :
  (sequential_shape (DCGAN_nets.Discriminator nc ndf) (S b, nc, side, side)
     = Some (S b, 1, 1, 1) <-> 32 <= side <= 47) /\
  (sequential_shape (Nlzl16_nets.Discriminator p) (S b, Nlzl16.nc p, side, side)
     = Some (S b, 1, 1, 1) <-> 32 <= side <= 47).
Proof. split; [apply DCGAN_discriminator_sides | apply Nlzl16_discriminator_sides]. Qed.

(** X9. In both scripts netD can score what netG makes and what the loader
    delivers: a latent batch of shape (b, nz, 1, 1) pushed through netG
    and then netD, and a real batch of shape (b, nc, 32, 32) pushed through
    netD, both end as (b, 1, 1, 1), one score for each of the b labels. *)
Theorem adversarial_pair_shapes (nc nz ngf ndf b : nat) (p : Nlzl16.Params) :
  (sequential_shape (DCGAN_nets.Generator nc nz ngf) (S b, nz, 1, 1)
     ≫= sequential_shape (DCGAN_nets.Discriminator nc ndf)) = Some (S b, 1, 1, 1) /\
  sequential_shape (DCGAN_nets.Discriminator nc ndf) (S b, nc, 32, 32)
    = Some (S b, 1, 1, 1) /\
  (sequential_shape (Nlzl16_nets.Generator p) (S b, Nlzl16.nz p, 1, 1)
     ≫= sequential_shape (Nlzl16_nets.Discriminator p)) = Some (S b, 1, 1, 1) /\
  sequential_shape (Nlzl16_nets.Discriminator p) (S b, Nlzl16.nc p, 32, 32)
    = Some (S b, 1, 1, 1).
Proof.
  rewrite (DCGAN_generator_hw nc nz ngf b 0 0), (Nlzl16_generator_hw p b 0 0).
  cbn [mbind option_bind Nat.mul Nat.add].
  repeat split.
  - apply DCGAN_discriminator_sides. lia.
  - apply DCGAN_discriminator_sides. lia.
  - apply Nlzl16_discriminator_sides. lia.
  - apply Nlzl16_discriminator_sides. lia.
Qed.

(** * What a step depends on *)

Section StepDependencies.
Context {T : Torch}.

(** X10. A step begins by zeroing netD's gradients and begins Phase G by
    zeroing netG's: whatever earlier passes left in the [.grad] slots
    (Phase G's backward leaves the gradient of errG in netD's) has no part
    in the outcome of the step. *)
Theorem stale_gradients_are_dropped (p : DCGAN.Params) (q : Nlzl16.Params)
    (sc : Sched) (data : Image) (gD : option GradD) (gG : option GradG) (s : State) :
  DCGAN.train_step p sc data (with_grads gD gG s) = DCGAN.train_step p sc data s /\
  Nlzl16.train_step q sc data (with_grads gD gG s) = Nlzl16.train_step q sc data s.
Proof. split; vm_compute; reflexivity. Qed.

Lemma view_with_samples (s1 s2 : State) :
  training_view s1 = training_view s2 ->
  s2 = with_samples (bufG (gen s2)) (img_list s2) s1.
Proof.
  destruct s1 as [r1 [tg1 bg1 gg1 og1] d1 G1 D1 l1 i1 p1 lg1].
  destruct s2 as [r2 [tg2 bg2 gg2 og2] d2 G2 D2 l2 i2 p2 lg2].
  unfold training_view, with_samples. cbn. intros [= -> -> -> -> -> -> -> -> -> ->].
  reflexivity.
Qed.

Lemma view_of_with_samples b l (s : State) :
  training_view (with_samples b l s) = training_view s.
Proof. reflexivity. Qed.

Section Buffers.
Hypothesis Hbn : train_mode_ignores_buffers T.

Lemma DCGAN_step_view p sc data b l (s : State) :
  training_view (DCGAN.train_step p sc data (with_samples b l s)) =
  training_view (DCGAN.train_step p sc data s).
Proof.
  destruct Hbn as [HG Hg].
  unfold training_view, DCGAN.train_step, D_real_pass, D_fake_pass, G_pass. cbn.
  rewrite !(HG sc _ b (bufG (gen s))), !(Hg sc _ b (bufG (gen s))). reflexivity.
Qed.

Lemma Nlzl16_step_view q sc data b l (s : State) :
  (Nlzl16.train_step q sc data (with_samples b l s)).1 =
    (Nlzl16.train_step q sc data s).1 /\
  training_view (Nlzl16.train_step q sc data (with_samples b l s)).2 =
    training_view (Nlzl16.train_step q sc data s).2.
Proof.
  destruct Hbn as [HG Hg].
  unfold training_view, Nlzl16.train_step, D_real_pass, D_fake_pass, G_pass. cbn.
  rewrite !(HG sc _ b (bufG (gen s))), !(Hg sc _ b (bufG (gen s))). split; reflexivity.
Qed.

Lemma DCGAN_next_batch_samples p b l (s : State) :
  DCGAN.next_batch p (with_samples b l s) =
  match DCGAN.next_batch p s with
  | Some (d, s') => Some (d, with_samples b l s')
  | None => None
  end.
Proof.
  unfold DCGAN.next_batch, start_pass. cbn [pending rng with_samples].
  destruct (pending s); [|reflexivity].
  destruct (map _ _); reflexivity.
Qed.

Lemma DCGAN_tail_view (due : bool) sc fn1 fn2 (a1 a2 : State) :
  training_view a1 = training_view a2 ->
  training_view
    (incr_iters
       (if due then
          let '(grid, s3) := snapshot sc fn1 a1 in
          {| rng := rng s3; gen := gen s3; disc := disc s3; G_losses := G_losses s3;
             D_losses := D_losses s3; img_list := img_list s3 ++ [grid];
             iters := iters s3; pending := pending s3; log := log s3 |}
        else a1)) =
  training_view
    (incr_iters
       (if due then
          let '(grid, s3) := snapshot sc fn2 a2 in
          {| rng := rng s3; gen := gen s3; disc := disc s3; G_losses := G_losses s3;
             D_losses := D_losses s3; img_list := img_list s3 ++ [grid];
             iters := iters s3; pending := pending s3; log := log s3 |}
        else a2)).
Proof.
  intros H. rewrite (view_with_samples a1 a2 H). destruct due; reflexivity.
Qed.

Lemma DCGAN_body_view p oracle fn1 fn2 epoch i (s1 s2 : State) :
  training_view s1 = training_view s2 ->
  training_view <$> DCGAN.loop_body p oracle fn1 epoch i s1 =
  training_view <$> DCGAN.loop_body p oracle fn2 epoch i s2.
Proof.
  intros H. rewrite (view_with_samples s1 s2 H).
  unfold DCGAN.loop_body. rewrite DCGAN_next_batch_samples.
  destruct (DCGAN.next_batch p s1) as [[d s']|]; [|reflexivity].
  cbn [fmap option_fmap option_map]. f_equal.
  change (iters (with_samples (bufG (gen s2)) (img_list s2) s')) with (iters s').
  apply DCGAN_tail_view. symmetry. apply DCGAN_step_view.
Qed.

Lemma for_each_view {A : Type} (f g : A -> State -> option State) (l : list A) :
  (forall a s1 s2, training_view s1 = training_view s2 ->
                   training_view <$> f a s1 = training_view <$> g a s2) ->
  forall s1 s2, training_view s1 = training_view s2 ->
    training_view <$> for_each f l s1 = training_view <$> for_each g l s2.
Proof.
  intros H. induction l as [|a l IH]; intros s1 s2 E; cbn [for_each].
  - cbn. f_equal. exact E.
  - specialize (H a s1 s2 E).
    destruct (f a s1) as [t1|], (g a s2) as [t2|];
      cbn [fmap option_fmap option_map] in H; try discriminate.
    + apply IH. congruence.
    + reflexivity.
Qed.

Lemma Nlzl16_body_view q oracle fn1 fn2 data (s1 s2 : State) :
  training_view s1 = training_view s2 ->
  training_view (Nlzl16.loop_body q oracle fn1 data s1) =
  training_view (Nlzl16.loop_body q oracle fn2 data s2).
Proof.
  intros H. rewrite (view_with_samples s1 s2 H).
  unfold Nlzl16.loop_body.
  change (iters (with_samples (bufG (gen s2)) (img_list s2) s1)) with (iters s1).
  destruct (Nlzl16_step_view q (oracle (iters s1)) data (bufG (gen s2)) (img_list s2) s1)
    as [E1 E2].
  destruct (Nlzl16.train_step q (oracle (iters s1)) data s1) as [[eG eD] a1].
  destruct (Nlzl16.train_step q (oracle (iters s1)) data
              (with_samples (bufG (gen s2)) (img_list s2) s1)) as [[eG' eD'] a2].
  cbn [fst snd] in E1, E2. injection E1 as -> ->.
  rewrite (view_with_samples a2 a1 E2).
  destruct (iters s1 mod 5000 =? 0); reflexivity.
Qed.

Lemma Nlzl16_for_batches_view q oracle fn1 fn2 batches :
  forall s1 s2 : State, training_view s1 = training_view s2 ->
    training_view (Nlzl16.for_batches q oracle fn1 batches s1) =
    training_view (Nlzl16.for_batches q oracle fn2 batches s2).
Proof.
  induction batches as [|data rest IH]; intros s1 s2 H; cbn [Nlzl16.for_batches].
  - exact H.
  - assert (Hi : iters s1 = iters s2) by (unfold training_view in H; congruence).
    rewrite Hi. destruct (Nlzl16.step q <=? iters s2); [exact H|].
    apply IH, Nlzl16_body_view.
    rewrite (view_with_samples s1 s2 H). reflexivity.
Qed.

Lemma Nlzl16_train_view q oracle fn1 fn2 fuel :
  forall s1 s2 : State, training_view s1 = training_view s2 ->
    training_view <$> Nlzl16.train fuel q oracle fn1 s1 =
    training_view <$> Nlzl16.train fuel q oracle fn2 s2.
Proof.
  induction fuel as [|fuel IH]; intros s1 s2 H; cbn [Nlzl16.train];
    assert (Hi : iters s1 = iters s2) by (unfold training_view in H; congruence);
    rewrite Hi; destruct (iters s2 <? Nlzl16.step q);
    try reflexivity; try (cbn; f_equal; exact H).
  unfold start_pass. cbn [fst snd].
  assert (Hr : rng s1 = rng s2) by (unfold training_view in H; congruence).
  rewrite Hr. apply IH, Nlzl16_for_batches_view.
  rewrite (view_with_samples s1 s2 H). reflexivity.
Qed.

End Buffers.

(** X11. The samples taken for visualisation do not steer training. Granted
    that netG in train mode computes from batch statistics, two runs of
    the loop that differ in [fixed_noise] (and in the running statistics
    and sample grids they start with) end with the same parameters,
    optimizer states, gradients, losses, counter and generator state of
    the random numbers: only netG's running statistics and the grids can
    differ. *)
Theorem fixed_noise_does_not_steer (p : DCGAN.Params) (q : Nlzl16.Params)
    (oracle : nat -> Sched) (fuel : nat) (fn1 fn2 : Latent) (s1 s2 : State) :
  train_mode_ignores_buffers T ->
  training_view s1 = training_view s2 ->
  training_view <$> DCGAN.train p oracle fn1 s1 =
    training_view <$> DCGAN.train p oracle fn2 s2 /\
  training_view <$> Nlzl16.train fuel q oracle fn1 s1 =
    training_view <$> Nlzl16.train fuel q oracle fn2 s2.
Proof.
  intros Hbn H. split.
  - unfold DCGAN.train. apply for_each_view; [|exact H].
    intros epoch t1 t2 E. apply for_each_view; [|exact E].
    intros i u1 u2 E'. apply DCGAN_body_view; assumption.
  - apply Nlzl16_train_view; assumption.
Qed.

End StepDependencies.

(** * When the sample for visualisation is taken *)

Section SampleGrid.
Context {T : Torch}.

Lemma for_each_app {A S : Type} (body : A -> S -> option S) (l1 l2 : list A) (s : S) :
  for_each body (l1 ++ l2) s =
  match for_each body l1 s with
  | None => None
  | Some s1 => for_each body l2 s1
  end.
Proof.
  revert s. induction l1 as [|x l1 IH]; intros s; cbn [for_each app]; [reflexivity|].
  destruct (body x s); [apply IH | reflexivity].
Qed.

Lemma snapshot_due_iff p epoch i :
  0 < len_loader (DCGAN.batch_size p) ->
  DCGAN.snapshot_due p epoch i = true <->
  epoch + 1 = DCGAN.n_epochs p /\ i + 1 = len_loader (DCGAN.batch_size p).
Proof.
  intros Hlen. unfold DCGAN.snapshot_due.
  rewrite andb_true_iff, Nat.eqb_eq, Z.eqb_eq. lia.
Qed.

Lemma DCGAN_tail_img (due : bool) sc fn s s2 :
  iters s2 = iters s ->
  img_list s2 = img_list s ->
  let s' :=
    incr_iters
      (if due then
         let '(grid, s3) := snapshot sc fn s2 in
         {| rng := rng s3; gen := gen s3; disc := disc s3; G_losses := G_losses s3;
            D_losses := D_losses s3; img_list := img_list s3 ++ [grid];
            iters := iters s3; pending := pending s3; log := log s3 |}
       else s2) in
  iters s' = iters s + 1 /\
  if due then
    exists buf, img_list s' =
      img_list s ++ [make_grid (G_forward sc (thetaG (gen s')) buf fn).1]
  else img_list s' = img_list s.
Proof.
  intros Hi Hl. destruct due;
    cbn [snapshot iters img_list incr_iters emit with_gen gen thetaG fst snd].
  - split; [lia|]. exists (bufG (gen s2)). rewrite Hl. reflexivity.
  - split; [lia | exact Hl].
Qed.

Lemma DCGAN_body_img p oracle fn epoch i s s' :
  0 < len_loader (DCGAN.batch_size p) ->
  DCGAN.loop_body p oracle fn epoch i s = Some s' ->
  iters s' = iters s + 1 /\
  if DCGAN.snapshot_due p epoch i then
    exists buf, img_list s' =
      img_list s ++ [make_grid (G_forward (oracle (iters s)) (thetaG (gen s')) buf fn).1]
  else img_list s' = img_list s.
Proof.
  intros Hlen. unfold DCGAN.loop_body.
  destruct (next_batch_Some p s Hlen) as (data & s1 & -> & _ & _ & _ & _ & HI & Hi & _).
  destruct (DCGAN_step_fields p (oracle (iters s1)) data s1) as (A1 & _ & _ & A4 & _).
  cbv beta iota zeta.
  revert A1 A4. generalize (DCGAN.train_step p (oracle (iters s1)) data s1).
  intros s2 A1 A4 E. apply (inj Some) in E. subst s'.
  rewrite Hi. apply DCGAN_tail_img; congruence.
Qed.

Lemma DCGAN_inner_img p oracle fn epoch idx :
  0 < len_loader (DCGAN.batch_size p) ->
  (forall i, i ∈ idx -> DCGAN.snapshot_due p epoch i = false) ->
  forall s s', for_each (DCGAN.loop_body p oracle fn epoch) idx s = Some s' ->
  iters s' = iters s + length idx /\ img_list s' = img_list s.
Proof.
  intros Hlen. induction idx as [|i idx IH]; intros Hnd s s'; cbn [for_each length].
  - intros [= <-]. split; [lia | reflexivity].
  - destruct (DCGAN.loop_body p oracle fn epoch i s) as [s1|] eqn:E; [|discriminate].
    intros E2. apply DCGAN_body_img in E; [|exact Hlen]. destruct E as [Ei El].
    rewrite (Hnd i) in El by (left).
    apply IH in E2; [|intros j Hj; apply Hnd; right; exact Hj].
    destruct E2 as [Fi Fl]. split; [lia | congruence].
Qed.

Lemma DCGAN_outer_img p oracle fn epochs :
  0 < len_loader (DCGAN.batch_size p) ->
  (forall e, e ∈ epochs -> e + 1 <> DCGAN.n_epochs p) ->
  forall s s',
    for_each
      (fun e => for_each (DCGAN.loop_body p oracle fn e) (seq 0 DCGAN.steps_per_epoch))
      epochs s = Some s' ->
    iters s' = iters s + length epochs * DCGAN.steps_per_epoch /\ img_list s' = img_list s.
Proof.
  intros Hlen. induction epochs as [|e epochs IH]; intros Hnd s s'; cbn [for_each length].
  - intros [= <-]. split; [lia | reflexivity].
  - destruct (for_each (DCGAN.loop_body p oracle fn e) (seq 0 DCGAN.steps_per_epoch) s)
      as [s1|] eqn:E; [|discriminate].
    intros E2. apply DCGAN_inner_img in E; [|exact Hlen|].
    + apply IH in E2; [|intros j Hj; apply Hnd; right; exact Hj].
      rewrite length_seq in E. destruct E as [Ei El], E2 as [Fi Fl].
      split; [lia | congruence].
    + intros i _. apply not_true_is_false. rewrite snapshot_due_iff by exact Hlen.
      intros [K _]. apply (Hnd e); [left | exact K].
Qed.

Lemma seq_split3 (len m : nat) :
  0 < len <= m -> seq 0 m = seq 0 (len - 1) ++ [len - 1] ++ seq len (m - len).
Proof.
  intros H. replace m with ((len - 1) + (1 + (m - len))) at 1 by lia.
  rewrite seq_app, seq_app. cbn [seq Nat.add]. do 3 f_equal. lia.
Qed.

(** X12. The figure "Fake Images" does not show the trained generator. The one
    grid of [img_list] is made in the last epoch at
    [i = len(train_loader) - 1], from the parameters netG has after
    [(n_epochs - 1) * 1000 + len(train_loader)] steps; the loop then runs
    the [1000 - len(train_loader)] steps that are left of the epoch, which
    leave [img_list] as it is. *)
Theorem sample_grid_is_early (p : DCGAN.Params) (oracle : nat -> Sched)
    (fixed_noise : Latent) (s : State) :
  0 < DCGAN.n_epochs p ->
  0 < len_loader (DCGAN.batch_size p) <= DCGAN.steps_per_epoch ->
  exists s_a s_end buf,
    DCGAN_train_until p oracle fixed_noise
      (DCGAN.n_epochs p - 1) (len_loader (DCGAN.batch_size p)) s = Some s_a /\
    for_each (DCGAN.loop_body p oracle fixed_noise (DCGAN.n_epochs p - 1))
      (seq (len_loader (DCGAN.batch_size p))
         (DCGAN.steps_per_epoch - len_loader (DCGAN.batch_size p))) s_a = Some s_end /\
    DCGAN.train p oracle fixed_noise s = Some s_end /\
    iters s_a = iters s + (DCGAN.n_epochs p - 1) * DCGAN.steps_per_epoch
                + len_loader (DCGAN.batch_size p) /\
    iters s_end = iters s + DCGAN.n_epochs p * DCGAN.steps_per_epoch /\
    img_list s_end =
      img_list s ++
      [make_grid (G_forward (oracle (iters s_a - 1)) (thetaG (gen s_a)) buf fixed_noise).1].
Proof.
  intros Hn Hlen. assert (Hpos : 0 < len_loader (DCGAN.batch_size p)) by lia.
  set (len := len_loader (DCGAN.batch_size p)) in *.
  set (n := DCGAN.n_epochs p) in *.
  set (outer := fun e => for_each (DCGAN.loop_body p oracle fixed_noise e)
                           (seq 0 DCGAN.steps_per_epoch)).
  destruct (DCGAN_outer_advanced p oracle fixed_noise (seq 0 (n - 1)) Hpos s) as (s1 & E1 & _).
  fold outer in E1.
  destruct (DCGAN_inner_advanced p oracle fixed_noise (n - 1) (seq 0 (len - 1)) Hpos s1)
    as (s2 & E2 & _).
  destruct (DCGAN_body_advanced p oracle fixed_noise (n - 1) (len - 1) s2 Hpos)
    as (s3 & E3 & _).
  destruct (DCGAN_inner_advanced p oracle fixed_noise (n - 1)
              (seq len (DCGAN.steps_per_epoch - len)) Hpos s3) as (s4 & E4 & _).
  apply DCGAN_outer_img in E1 as F1; [|exact Hpos|].
  2:{ intros e He. apply elem_of_seq in He. fold n. lia. }
  apply DCGAN_inner_img in E2 as F2; [|exact Hpos|].
  2:{ intros i Hi. apply elem_of_seq in Hi. apply not_true_is_false.
      rewrite snapshot_due_iff by exact Hpos. fold len. lia. }
  apply DCGAN_body_img in E3 as F3; [|exact Hpos].
  replace (DCGAN.snapshot_due p (n - 1) (len - 1)) with true in F3.
  2:{ symmetry. apply snapshot_due_iff; [exact Hpos|]. fold len n. lia. }
  apply DCGAN_inner_img in E4 as F4; [|exact Hpos|].
  2:{ intros i Hi. apply elem_of_seq in Hi. apply not_true_is_false.
      rewrite snapshot_due_iff by exact Hpos. fold len. lia. }
  rewrite !length_seq in *.
  destruct F1 as [F1 G1], F2 as [F2 G2], F3 as [F3 (buf & G3)], F4 as [F4 G4].
  assert (Hmid : DCGAN_train_until p oracle fixed_noise (n - 1) len s = Some s3).
  { unfold DCGAN_train_until. fold outer. rewrite E1.
    replace (seq 0 len) with (seq 0 (len - 1) ++ [len - 1]).
    - rewrite for_each_app, E2. cbn [for_each]. rewrite E3. reflexivity.
    - replace len with ((len - 1) + 1) at 3 by lia. rewrite seq_app. reflexivity. }
  assert (Hend : DCGAN.train p oracle fixed_noise s = Some s4).
  { unfold DCGAN.train. fold outer n.
    replace (seq 0 n) with (seq 0 (n - 1) ++ [n - 1]).
    - rewrite for_each_app, E1. cbn [for_each]. unfold outer at 1.
      rewrite (seq_split3 len DCGAN.steps_per_epoch) by exact Hlen.
      rewrite for_each_app, E2. cbn [for_each app]. rewrite E3, E4. reflexivity.
    - replace n with ((n - 1) + 1) at 3 by lia. rewrite seq_app. reflexivity. }
  assert (Hs2 : iters s3 - 1 = iters s2) by lia.
  revert Hlen F1 F4 Hmid Hend E4. clear E1 E2 E3. clear outer.
  generalize DCGAN.steps_per_epoch. intros spe Hlen F1 F4 Hmid Hend E4.
  exists s3, s4, buf. repeat split; try assumption.
  - lia.
  - nia.
  - rewrite G4, G3, G2, G1, Hs2. reflexivity.
Qed.

End SampleGrid.

(** * The cycled loader *)

Section Cycle.
Context {T : Torch}.

Lemma DCGAN_next_batches_pending p (l : list Image) :
  forall s, pending s = l ->
  exists s', DCGAN_next_batches p (length l) s = Some (l, s') /\
    pending s' = [] /\ rng s' = rng s.
Proof.
  induction l as [|x l IH]; intros s E; cbn [length DCGAN_next_batches].
  - exists s. auto.
  - unfold DCGAN.next_batch. rewrite E.
    destruct (IH (emit EvNext (with_pending l s)) eq_refl) as (s' & -> & P & R).
    exists s'. auto.
Qed.

(** X13. [cycle(train_loader)] hands out whole passes: from the start of a
    pass, [len(train_loader)] calls of [next] return the batches of one
    shuffle of the loader, each once and in the loader's order, and draw
    from the random generator once; the call after them shuffles again. *)
Theorem cycle_serves_whole_passes (p : DCGAN.Params) (s : State) :
  pending s = [] ->
  0 < len_loader (DCGAN.batch_size p) ->
  exists s',
    DCGAN_next_batches p (len_loader (DCGAN.batch_size p)) s =
      Some (map (loader_iter (rng s)).1 (seq 0 (len_loader (DCGAN.batch_size p))), s') /\
    pending s' = [] /\
    rng s' = (loader_iter (rng s)).2 /\
    exists s'', DCGAN.next_batch p s' =
      Some ((loader_iter (rng s')).1 0, s'') /\ rng s'' = (loader_iter (rng s')).2.
Proof.
  intros E Hlen.
  assert (Hnext : forall s0, pending s0 = [] ->
    DCGAN.next_batch p s0 =
      Some ((loader_iter (rng s0)).1 0,
            emit EvNext
              (with_pending (map (loader_iter (rng s0)).1 (seq 1 (len_loader (DCGAN.batch_size p) - 1)))
                 (with_rng (loader_iter (rng s0)).2 s0)))).
  { intros s0 E0. unfold DCGAN.next_batch, start_pass. rewrite E0.
    destruct (len_loader (DCGAN.batch_size p)) as [|n]; [lia|].
    cbn [seq map]. rewrite Nat.sub_succ, Nat.sub_0_r. reflexivity. }
  destruct (len_loader (DCGAN.batch_size p)) as [|n] eqn:En; [lia|].
  cbn [DCGAN_next_batches seq map]. rewrite (Hnext s E).
  rewrite Nat.sub_succ, Nat.sub_0_r.
  set (l := map (loader_iter (rng s)).1 (seq 1 n)).
  destruct (DCGAN_next_batches_pending p l (emit EvNext (with_pending l (with_rng (loader_iter (rng s)).2 s)))
              eq_refl) as (s' & E' & P & R).
  replace (length l) with n in E' by (unfold l; rewrite length_map, length_seq; reflexivity).
  rewrite E'. exists s'. repeat split; [exact P | exact R |].
  rewrite (Hnext s' P). eexists. split; reflexivity.
Qed.

End Cycle.

(** * More on the interpolation block *)

Section InterpolationShapes.
Context {Fl : Float}.

Lemma broadcast_shape_refl (sh : list nat) : broadcast_shape sh sh = Ok sh.
Proof.
  induction sh as [|n sh IH]; cbn [broadcast_shape]; [reflexivity|].
  rewrite IH. cbn [bind]. rewrite Nat.eqb_refl. reflexivity.
Qed.

Lemma broadcast_rowwise (b nz : nat) :
  broadcast_shape [b; 1; 1; 1] [b; nz; 1; 1] = Ok [b; nz; 1; 1].
Proof.
  cbn [broadcast_shape bind Nat.eqb]. rewrite Nat.eqb_refl.
  destruct nz as [|[|nz]]; reflexivity.
Qed.

(** X14. The grid of the interpolation block has [col_size] rows and columns,
    and [col_size] is the integer square root of the batch size: on
    [sample_noise] of shape (batch_size, nz, 1, 1) the block of
    [nlzl16_generative_model.py] returns [lerp_z] of that same shape when
    the batch size is a perfect square, and raises at
    [view(batch_size, 1, 1, 1)] when it is not. *)
Theorem interpolation_needs_square_batch (p : Nlzl16.Params) (nz : nat) (d : list F) :
  let b := Nlzl16.batch_size p in
  let sample_noise := {| shape := [b; nz; 1; 1]; data := d |} in
  (col_size b * col_size b = b ->
   exists lerp_z, Nlzl16_interpolation p sample_noise = Ok lerp_z /\
                  shape lerp_z = [b; nz; 1; 1]) /\
  (col_size b * col_size b <> b ->
   Nlzl16_interpolation p sample_noise = Raise ViewSize).
Proof.
  cbv zeta. set (b := Nlzl16.batch_size p). set (c := col_size b).
  assert (Hc : c <= b).
  { unfold c, col_size. pose proof (Nat.sqrt_spec b ltac:(lia)) as [H _]. nia. }
  unfold Nlzl16_interpolation, Nlzl16_endpoints. fold b. fold c.
  unfold slice_from, slice0, repeat, unsqueeze1, linspace, view.
  cbn [shape data bind length Nat.ltb Nat.leb Nat.sub replicate app zip_with numel
       foldr fst snd].
  rewrite !Nat.mul_1_r, !Nat.mul_1_l.
  replace (Nat.max (Nat.min 0 b) (Nat.min c b) - Nat.min 0 b) with c by lia.
  replace (Nat.max (Nat.min (b - c) b) (Nat.min b b) - Nat.min (b - c) b) with c by lia.
  split.
  - intros Hsq. rewrite Hsq, Nat.eqb_refl. cbn [bind fst snd].
    unfold lerp, binop, one_minus, pad_left.
    cbn [shape data length Nat.max Nat.sub replicate app].
    eexists.
    rewrite broadcast_rowwise. cbn [bind shape length Nat.max Nat.sub replicate app].
    rewrite broadcast_shape_refl. cbn [bind]. split; reflexivity.
  - intros Hsq. rewrite (proj2 (Nat.eqb_neq b (c * c))) by congruence. reflexivity.
Qed.

End InterpolationShapes.

Section PenaltyFacts.
Context {Fl : Float}.

Lemma expand_eta (b : nat) (u : list F) :
  exists d, expand [b; 3; 32; 32] {| shape := [b; 1; 1; 1]; data := u |} =
            Ok {| shape := [b; 3; 32; 32]; data := d |}.
Proof.
  unfold expand, pad_left.
  cbn [shape data length Nat.ltb Nat.leb Nat.sub replicate app zip zip_with forallb
       fst snd].
  rewrite Nat.eqb_refl. cbn [orb andb Nat.eqb]. eexists. reflexivity.
Qed.

Lemma binop_same (f : F -> F -> F) (sh : list nat) (da db : list F) :
  binop f {| shape := sh; data := da |} {| shape := sh; data := db |} =
  Ok {| shape := sh;
        data := zip_with f (expand_data sh sh da) (expand_data sh sh db) |}.
Proof.
  unfold binop, pad_left. cbn [shape data].
  rewrite Nat.max_id, Nat.sub_diag. cbn [replicate app].
  rewrite broadcast_shape_refl. reflexivity.
Qed.

Lemma binop_raise (f : F -> F -> F) (sa sb : list nat) (da db : list F) (e : TorchError) :
  length sa = length sb ->
  broadcast_shape sa sb = Raise e ->
  binop f {| shape := sa; data := da |} {| shape := sb; data := db |} = Raise e.
Proof.
  intros Hl Hb. unfold binop, pad_left. cbn [shape data].
  rewrite Hl, Nat.max_id, Nat.sub_diag. cbn [replicate app].
  rewrite Hb. reflexivity.
Qed.

(** X15. [gradient_penalty] is written for batches of 3 x 32 x 32 images: on a
    real and a fake batch of shape (b, 3, 32, 32) its interpolate has that
    shape; on fake batches of any other side but 1 (the 33 of the
    Generator of [DCGAN.py], say) the multiplication with the expanded
    [eta] raises. *)
Theorem gradient_penalty_fits_32 (b side : nat) (u dr df : list F) :
  (exists t,
     gradient_penalty_interpolated u
       {| shape := [b; 3; 32; 32]; data := dr |}
       {| shape := [b; 3; 32; 32]; data := df |} = Ok t /\
     shape t = [b; 3; 32; 32]) /\
  (side <> 32 -> side <> 1 ->
   gradient_penalty_interpolated u
     {| shape := [b; 3; 32; 32]; data := dr |}
     {| shape := [b; 3; side; side]; data := df |} = Raise BroadcastSize).
Proof.
  unfold gradient_penalty_interpolated. cbn [shape].
  destruct (expand_eta b u) as (d & ->). cbn [bind].
  rewrite binop_same. cbn [bind]. unfold one_minus. cbn [shape data].
  split.
  - rewrite binop_same. cbn [bind]. rewrite binop_same.
    eexists. split; reflexivity.
  - intros H32 H1. rewrite (binop_raise _ _ _ _ _ BroadcastSize); [reflexivity..|].
    cbn [broadcast_shape bind].
    rewrite (proj2 (Nat.eqb_neq 32 side)) by congruence.
    rewrite (proj2 (Nat.eqb_neq side 1)) by congruence. reflexivity.
Qed.

End PenaltyFacts.

(** * The further properties at concrete inputs *)

Lemma toy_ignores_buffers n : train_mode_ignores_buffers (toy_data n).
Proof. split; intros; reflexivity. Qed.

Lemma toy_loader_4 : 0 < @len_loader toy 4 <= DCGAN.steps_per_epoch.
Proof. split; apply Nat.leb_le; vm_compute; reflexivity. Qed.


Lemma setup_directory_idempotent_witness :
  setup_directory generated_images_dir stale_fs =
    Some (<[generated_images_dir := Dir ∅]> stale_fs) /\
  setup_directory generated_images_dir (<[generated_images_dir := Dir ∅]> stale_fs) =
    Some (<[generated_images_dir := Dir ∅]> stale_fs).
Proof.
  assert (H : setup_directory generated_images_dir stale_fs =
              Some (<[generated_images_dir := Dir ∅]> stale_fs))
    by (vm_compute; reflexivity).
  split; [exact H|]. exact (setup_directory_idempotent _ _ _ H).
Defined.


Lemma Nlzl16_saves_whole_rounds_witness :
  names_free stale_fs /\ 150 <= 100 * 2 /\
  exists real files,
    Nlzl16_files 2 3 150 stale_fs = Some (real, Some (Dir files)) /\
    size files = 100 * ((150 + 99) / 100) /\
    150 <= size files < 150 + 100 /\
    (size files = 150 <-> 150 mod 100 = 0).
Proof.
  assert (H : 150 <= 100 * 2) by (apply Nat.leb_le; vm_compute; reflexivity).
  split; [exact stale_fs_names_free|]. split; [exact H|].
  exact (Nlzl16_saves_whole_rounds 2 3 150 stale_fs stale_fs_names_free H).
Defined.


Lemma fixed_noise_does_not_steer_witness :
  train_mode_ignores_buffers toy /\
  @training_view toy toy_start =
    @training_view toy (@with_samples toy 7%nat [3%Z] toy_start) /\
  @training_view toy <$>
    @Nlzl16.train toy 2 small_step_run (fun _ => true) 1%Z toy_start =
  @training_view toy <$>
    @Nlzl16.train toy 2 small_step_run (fun _ => true) 5%Z
      (@with_samples toy 7%nat [3%Z] toy_start).
Proof.
  split; [exact (toy_ignores_buffers 5)|]. split; [reflexivity|].
  exact (proj2 (@fixed_noise_does_not_steer toy small_epoch_run small_step_run
                  (fun _ => true) 2 1%Z 5%Z toy_start
                  (@with_samples toy 7%nat [3%Z] toy_start)
                  (toy_ignores_buffers 5) eq_refl)).
Defined.

Lemma sample_grid_is_early_witness :
  0 < DCGAN.n_epochs small_epoch_run /\
  0 < @len_loader toy (DCGAN.batch_size small_epoch_run) <= DCGAN.steps_per_epoch /\
  exists s_a s_end : @State toy,
    @DCGAN_train_until toy small_epoch_run (fun _ => true) 1%Z 0 2 toy_start = Some s_a /\
    @DCGAN.train toy small_epoch_run (fun _ => true) 1%Z toy_start = Some s_end /\
    iters s_a = 2 /\
    img_list s_end = [(thetaG (gen s_a) * 1)%Z].
Proof.
  split; [apply Nat.lt_0_1|]. split; [exact toy_loader_4|].
  destruct (@sample_grid_is_early toy small_epoch_run (fun _ => true) 1%Z toy_start
              Nat.lt_0_1 toy_loader_4)
    as (s_a & s_end & buf & H1 & _ & H3 & H4 & _ & H6).
  exists s_a, s_end. split; [exact H1|]. split; [exact H3|]. split; [exact H4|].
  exact H6.
Defined.

Lemma cycle_serves_whole_passes_witness :
  pending toy_start = [] /\
  0 < @len_loader toy (DCGAN.batch_size small_epoch_run) /\
  exists s' : @State toy,
    @DCGAN_next_batches toy small_epoch_run 2 toy_start =
      Some ([Z.of_nat (0 + rng toy_start); Z.of_nat (1 + rng toy_start)], s') /\
    pending s' = [] /\
    rng s' = S (rng toy_start).
Proof.
  split; [reflexivity|]. split; [exact (proj1 toy_loader_4)|].
  destruct (@cycle_serves_whole_passes toy small_epoch_run toy_start eq_refl
              (proj1 toy_loader_4))
    as (s' & H1 & H2 & H3 & _).
  exists s'. split; [exact H1|]. split; [exact H2 | exact H3].
Defined.

Lemma interpolation_needs_square_batch_witness :
  col_size 4 * col_size 4 = 4 /\
  col_size 8 * col_size 8 <> 8 /\
  (exists lerp_z,
     @Nlzl16_interpolation Float_Q small_step_run
       (@Build_Tensor Float_Q [4; 8; 1; 1] (replicate 32 1%Q)) = Ok lerp_z /\
     @shape Float_Q lerp_z = [4; 8; 1; 1]) /\
  @Nlzl16_interpolation Float_Q small_odd_run
    (@Build_Tensor Float_Q [8; 8; 1; 1] (replicate 64 1%Q)) = Raise ViewSize.
Proof.
  assert (H4 : col_size 4 * col_size 4 = 4) by reflexivity.
  assert (H8 : col_size 8 * col_size 8 <> 8) by (vm_compute; lia).
  split; [exact H4|]. split; [exact H8|]. split.
  - exact (proj1 (@interpolation_needs_square_batch Float_Q small_step_run 8
                    (replicate 32 1%Q)) H4).
  - exact (proj2 (@interpolation_needs_square_batch Float_Q small_odd_run 8
                    (replicate 64 1%Q)) H8).
Defined.

Lemma gradient_penalty_fits_32_witness :
  33 <> 32 /\ 33 <> 1 /\
  @gradient_penalty_interpolated Float_Q [1 # 2]%Q
    (@Build_Tensor Float_Q [1; 3; 32; 32] (replicate 3072 1%Q))
    (@Build_Tensor Float_Q [1; 3; 33; 33] (replicate 3267 1%Q)) = Raise BroadcastSize.
Proof.
  assert (H32 : 33 <> 32) by lia. assert (H1 : 33 <> 1) by lia.
  split; [exact H32|]. split; [exact H1|].
  exact (proj2 (@gradient_penalty_fits_32 Float_Q 1 33 [1 # 2]%Q
                  (replicate 3072 1%Q) (replicate 3267 1%Q)) H32 H1).
Defined.
